(** * SKMA-FON monitoring module: a shallow embedding of
      [kernel/monitoring_module.c] and the properties of its site store.

    The C module keeps [NUM_SITES] records of type [struct site_stats] in one
    kmalloc'ed buffer.  A self re-arming kernel timer rewrites every record
    once per second, [/proc/optifiber/myinfo] prints the records and lets a
    process mmap the buffer.  Integers are modelled as [Z] with the
    wrap-around of their C type written out, the [float] field as an IEEE-754
    binary32 value of [SpecFloat], the record array as a list updated by
    index. *)

From Stdlib Require Import ZArith QArith Qabs Lia.
From Stdlib Require Import Lqa.
From Stdlib Require Import SpecFloat.
From stdpp Require Import base option list strings.

Local Open Scope Z_scope.

(** ** Machine integers *)

Definition u32 (z : Z) : Z := z mod 2 ^ 32.
Definition u64 (z : Z) : Z := z mod 2 ^ 64.
(** [unsigned long] of a 64-bit kernel. *)
Definition ulong (z : Z) : Z := z mod 2 ^ 64.

Definition is_u32 (z : Z) : Prop := 0 <= z < 2 ^ 32.
Definition is_u64 (z : Z) : Prop := 0 <= z < 2 ^ 64.

(** ** Floating point

    [utilization] is a C [float].  The expression
    [(throughput_gbps / 2000.0) * 100] is evaluated in [double] (binary64,
    round to nearest even) and the result is rounded again to binary32 by the
    assignment. *)

Module Flt.

Definition double_of_Z (z : Z) : spec_float := binary_normalize 53 1024 z 0 false.
Definition single_of_Z (z : Z) : spec_float := binary_normalize 24 128 z 0 false.

(** The conversion of the assignment [float = double]. *)
Definition single_of_double (x : spec_float) : spec_float :=
  match x with
  | S754_finite s m e => binary_round 24 128 s m e
  | _ => x
  end.

Definition ddiv : spec_float -> spec_float -> spec_float := SFdiv 53 1024.
Definition dmul : spec_float -> spec_float -> spec_float := SFmul 53 1024.

(** The rational number a finite float stands for. *)
Definition to_Q (x : spec_float) : option Q :=
  match x with
  | S754_zero _ => Some 0%Q
  | S754_finite s m e =>
      let a := if s then Z.neg m else Z.pos m in
      Some match e with
           | Z0 => inject_Z a
           | Zpos _ => inject_Z (a * 2 ^ e)
           | Zneg p => Qmake a (2 ^ p)
           end
  | _ => None
  end.

Definition leb (x y : spec_float) : bool := SFleb x y.
Definition ltb (x y : spec_float) : bool := SFltb x y.

End Flt.

(** ** The record and the store *)

Definition NUM_SITES : nat := 4.

(** [struct site_stats]. *)
Record site_stats := mk_site_stats {
  site_name : string;          (* char site_name[32], as a C string *)
  timestamp : Z;               (* u64 *)
  throughput_gbps : Z;         (* u32 *)
  error_count : Z;             (* u32 *)
  ber_errors : Z;              (* u32 *)
  link_status : Z;             (* u32 *)
  utilization : spec_float;    (* float *)
  reserved : list Z            (* u32 reserved[8] *)
}.

(** A record of the buffer right after [memset (shared_buffer, 0, BUFFER_SIZE)]. *)
Definition zero_stats : site_stats :=
  mk_site_stats "" 0 0 0 0 0 (S754_zero false) (replicate 8 0).

Global Instance site_stats_inhabited : Inhabited site_stats := populate zero_stats.

Definition set_site_name (v : string) (s : site_stats) : site_stats :=
  mk_site_stats v (timestamp s) (throughput_gbps s) (error_count s)
                (ber_errors s) (link_status s) (utilization s) (reserved s).
Definition set_timestamp (v : Z) (s : site_stats) : site_stats :=
  mk_site_stats (site_name s) v (throughput_gbps s) (error_count s)
                (ber_errors s) (link_status s) (utilization s) (reserved s).
Definition set_throughput_gbps (v : Z) (s : site_stats) : site_stats :=
  mk_site_stats (site_name s) (timestamp s) v (error_count s)
                (ber_errors s) (link_status s) (utilization s) (reserved s).
Definition set_error_count (v : Z) (s : site_stats) : site_stats :=
  mk_site_stats (site_name s) (timestamp s) (throughput_gbps s) v
                (ber_errors s) (link_status s) (utilization s) (reserved s).
Definition set_ber_errors (v : Z) (s : site_stats) : site_stats :=
  mk_site_stats (site_name s) (timestamp s) (throughput_gbps s) (error_count s)
                v (link_status s) (utilization s) (reserved s).
Definition set_link_status (v : Z) (s : site_stats) : site_stats :=
  mk_site_stats (site_name s) (timestamp s) (throughput_gbps s) (error_count s)
                (ber_errors s) v (utilization s) (reserved s).
Definition set_utilization (v : spec_float) (s : site_stats) : site_stats :=
  mk_site_stats (site_name s) (timestamp s) (throughput_gbps s) (error_count s)
                (ber_errors s) (link_status s) v (reserved s).

(** The integer fields of a record fit their C types. *)
Definition wf_stats (s : site_stats) : Prop :=
  is_u64 (timestamp s) /\ is_u32 (throughput_gbps s) /\ is_u32 (error_count s)
  /\ is_u32 (ber_errors s) /\ is_u32 (link_status s).

(** [sites_data]: the buffer seen as an array of records. *)
Abbreviation store := (list site_stats).

Definition site_names : list string := ["MicrosoftDC"; "Dallas"; "Dobbins"; "Stone"].

(** ** The timer callback, one record *)

(** What one pass of the loop body of [update_stats_timer] obtains from the
    outside: the clock and the three calls of [get_random_bytes]. *)
Record draws := mk_draws {
  now : Z;       (* ktime_get_real_seconds (), a time64_t *)
  r_thr : Z;     (* rand_val before the throughput line *)
  r_err : Z;     (* rand_val before the error count line *)
  r_ber : Z      (* rand_val before the BER line *)
}.

(** [(throughput_gbps / 2000.0) * 100], stored into a [float]. *)
Definition utilization_of (t : Z) : spec_float :=
  Flt.single_of_double
    (Flt.dmul (Flt.ddiv (Flt.double_of_Z t) (Flt.double_of_Z 2000)) (Flt.double_of_Z 100)).

(** The six stores of the loop body, in program order. *)
Inductive wslot := WTs | WThr | WErr | WBer | WUtil | WLink.

Definition wslots : list wslot := [WTs; WThr; WErr; WBer; WUtil; WLink].

Definition write_slot (w : wslot) (d : draws) (s : site_stats) : site_stats :=
  match w with
  | WTs => set_timestamp (u64 (now d)) s
  | WThr => set_throughput_gbps (u32 (800 + u32 (r_thr d) mod 1200)) s
  | WErr => set_error_count (u32 (error_count s + u32 (r_err d) mod 3)) s
  | WBer => set_ber_errors (u32 (ber_errors s + u32 (r_ber d) mod 2)) s
  | WUtil => set_utilization (utilization_of (throughput_gbps s)) s
  | WLink => set_link_status 1 s
  end.

(** The loop body for one index: the sampler of one record. *)
Definition update_site (d : draws) (s : site_stats) : site_stats :=
  foldl (fun s w => write_slot w d s) s wslots.

(** The values one run of the callback draws, per site index. *)
Definition tick_env := nat -> draws.

(** The loop of [update_stats_timer] over the store. *)
Definition update_sites (env : tick_env) (st : store) : store :=
  foldl (fun st i => alter (update_site (env i)) i st) st (seq 0 NUM_SITES).

(** ** The store after [skma_fon_init] *)

(** [strncpy (dst, src, n)] into a zeroed field, read back as a C string. *)
Fixpoint strncpy (n : nat) (src : string) : string :=
  match n, src with
  | S n', String c rest => String c (strncpy n' rest)
  | _, _ => EmptyString
  end.

(** The body of the seeding loop of [skma_fon_init] for index [i]; [t] is
    what [ktime_get_real_seconds] returns there. *)
Definition seed_site (i : nat) (t : Z) (s : site_stats) : site_stats :=
  set_utilization (Flt.single_of_Z 50)
    (set_link_status 1
      (set_ber_errors 0
        (set_error_count 0
          (set_throughput_gbps 1000
            (set_timestamp (u64 t)
              (set_site_name (strncpy 31 (site_names !!! i)) s)))))).

Definition zero_store : store := replicate NUM_SITES zero_stats.

Definition seed_sites (t0 : nat -> Z) (st : store) : store :=
  foldl (fun st i => alter (seed_site i (t0 i)) i st) st (seq 0 NUM_SITES).

Definition init_store (t0 : nat -> Z) : store := seed_sites t0 zero_store.

(** The store after [n] runs of the callback; [envs k] holds the draws of
    run number [k]. *)
Definition run_ticks (envs : N -> tick_env) (n : N) (st : store) : store :=
  N.peano_rect (fun _ => store) st (fun k acc => update_sites (envs k) acc) n.

(** ** Kernel state and the sequential entry points *)

Definition ENOMEM : Z := 12.
Definition EINVAL : Z := 22.
Definition EAGAIN : Z := 11.

Definition PROC_DIR_NAME : string := "optifiber".
Definition PROC_ENTRY : string := "optifiber/myinfo".

(** A user mapping installed by [remap_pfn_range]. *)
Record mapping := mk_mapping {
  m_start : Z;
  m_pfn : Z;
  m_size : Z;
  m_prot : Z
}.

(** The part of [struct vm_area_struct] that [proc_mmap] reads. *)
Record vm_area := mk_vm_area {
  vm_start : Z;
  vm_end : Z;
  vm_page_prot : Z
}.

(** The globals of the module and the kernel objects they refer to. *)
Record kstate := mk_kstate {
  heap_live : bool;            (* the kmalloc'ed block is allocated *)
  shared_buffer : option Z;    (* the pointer, by the physical address of the block *)
  sites_data : store;          (* the block read through [sites_data] *)
  proc_dir : bool;             (* the pointer is not NULL *)
  proc_entry : bool;           (* the pointer is not NULL *)
  procfs : list string;        (* the names registered under /proc *)
  timer_pending : bool;        (* update_timer is queued *)
  vmas : list mapping;         (* user mappings of the block *)
  klog : list string           (* printk *)
}.

Definition k_blank : kstate :=
  mk_kstate false None [] false false [] false [] [].

Definition set_heap_live (v : bool) (k : kstate) : kstate :=
  mk_kstate v (shared_buffer k) (sites_data k) (proc_dir k) (proc_entry k)
            (procfs k) (timer_pending k) (vmas k) (klog k).
Definition set_shared_buffer (v : option Z) (k : kstate) : kstate :=
  mk_kstate (heap_live k) v (sites_data k) (proc_dir k) (proc_entry k)
            (procfs k) (timer_pending k) (vmas k) (klog k).
Definition set_sites_data (v : store) (k : kstate) : kstate :=
  mk_kstate (heap_live k) (shared_buffer k) v (proc_dir k) (proc_entry k)
            (procfs k) (timer_pending k) (vmas k) (klog k).
Definition set_proc_dir (v : bool) (k : kstate) : kstate :=
  mk_kstate (heap_live k) (shared_buffer k) (sites_data k) v (proc_entry k)
            (procfs k) (timer_pending k) (vmas k) (klog k).
Definition set_proc_entry (v : bool) (k : kstate) : kstate :=
  mk_kstate (heap_live k) (shared_buffer k) (sites_data k) (proc_dir k) v
            (procfs k) (timer_pending k) (vmas k) (klog k).
Definition set_procfs (v : list string) (k : kstate) : kstate :=
  mk_kstate (heap_live k) (shared_buffer k) (sites_data k) (proc_dir k) (proc_entry k)
            v (timer_pending k) (vmas k) (klog k).
Definition set_timer_pending (v : bool) (k : kstate) : kstate :=
  mk_kstate (heap_live k) (shared_buffer k) (sites_data k) (proc_dir k) (proc_entry k)
            (procfs k) v (vmas k) (klog k).
Definition set_vmas (v : list mapping) (k : kstate) : kstate :=
  mk_kstate (heap_live k) (shared_buffer k) (sites_data k) (proc_dir k) (proc_entry k)
            (procfs k) (timer_pending k) v (klog k).
Definition set_klog (v : list string) (k : kstate) : kstate :=
  mk_kstate (heap_live k) (shared_buffer k) (sites_data k) (proc_dir k) (proc_entry k)
            (procfs k) (timer_pending k) (vmas k) v.

(** Kernel code as a state transformer with a result. *)
Definition K (A : Type) : Type := kstate -> A * kstate.

Global Instance K_ret : MRet K := fun A a k => (a, k).
Global Instance K_bind : MBind K :=
  fun A B f m k => let (a, k') := m k in f a k'.

Definition kget : K kstate := fun k => (k, k).
Definition kmodify (f : kstate -> kstate) : K unit := fun k => (tt, f k).

Definition printk (msg : string) : K unit :=
  kmodify (fun k => set_klog (klog k ++ [msg]) k).

(** [kmalloc]: [ok] tells whether the allocator finds memory, [phys] where.
    The contents of the block stay unspecified until the [memset]. *)
Definition kmalloc (ok : bool) (phys : Z) : K bool :=
  fun k => if ok then (true, set_shared_buffer (Some phys) (set_heap_live true k))
           else (false, set_shared_buffer None k).

Definition kfree : K unit := kmodify (set_heap_live false).

Definition memset_buffer : K unit := kmodify (set_sites_data zero_store).

Definition proc_mkdir (ok : bool) : K bool :=
  fun k => if ok then (true, set_proc_dir true (set_procfs (PROC_DIR_NAME :: procfs k) k))
           else (false, set_proc_dir false k).

Definition proc_create (ok : bool) : K bool :=
  fun k => if ok then (true, set_proc_entry true (set_procfs (PROC_ENTRY :: procfs k) k))
           else (false, set_proc_entry false k).

Definition remove_proc_entry (name : string) : K unit :=
  kmodify (fun k => set_procfs (filter (fun n => n <> name) (procfs k)) k).

(** [timer_setup] binds the callback to the timer and queues nothing. *)
Definition timer_setup : K unit := mret tt.

Definition mod_timer : K unit := kmodify (set_timer_pending true).

(** [del_timer_sync] once the callback is not running on any CPU: the timer
    is taken off the queue.  The wait for a running callback is the guard of
    the corresponding step of the interleaving model below. *)
Definition del_timer_sync : K unit := kmodify (set_timer_pending false).

(** What [skma_fon_init] meets in the kernel. *)
Record init_env := mk_init_env {
  kmalloc_ok : bool;
  kmalloc_phys : Z;
  seed_now : nat -> Z;         (* ktime_get_real_seconds () in the seeding loop *)
  proc_mkdir_ok : bool;
  proc_create_ok : bool
}.

Definition skma_fon_init (env : init_env) : K Z :=
  printk "skma_fon: Initializing SKMA-FON monitoring module";;
  buf ← kmalloc (kmalloc_ok env) (kmalloc_phys env);
  if negb buf then
    printk "skma_fon: Failed to allocate shared buffer";;
    mret (- ENOMEM)
  else
    memset_buffer;;
    kmodify (fun k => set_sites_data (seed_sites (seed_now env) (sites_data k)) k);;
    dir ← proc_mkdir (proc_mkdir_ok env);
    if negb dir then
      printk "skma_fon: Failed to create proc directory";;
      kfree;;
      mret (- ENOMEM)
    else
      ent ← proc_create (proc_create_ok env);
      if negb ent then
        printk "skma_fon: Failed to create proc entry";;
        remove_proc_entry PROC_DIR_NAME;;
        kfree;;
        mret (- ENOMEM)
      else
        timer_setup;;
        mod_timer;;
        printk "skma_fon: Module loaded successfully";;
        printk "skma_fon: Proc entry: /proc/optifiber/myinfo";;
        printk "skma_fon: Shared buffer size";;
        mret 0.

(** The statements of [skma_fon_exit], one at a time. *)
Definition exit_stmt (pc : nat) : K unit :=
  match pc with
  | 0%nat => printk "skma_fon: Cleaning up module";; del_timer_sync
  | 1%nat => k ← kget; if proc_entry k then remove_proc_entry PROC_ENTRY else mret tt
  | 2%nat => k ← kget; if proc_dir k then remove_proc_entry PROC_DIR_NAME else mret tt
  | 3%nat => k ← kget;
             match shared_buffer k with Some _ => kfree | None => mret tt end;;
             printk "skma_fon: Module unloaded"
  | _ => mret tt
  end.

Definition EXIT_STMTS : nat := 4.

Definition skma_fon_exit : K unit :=
  exit_stmt 0;; exit_stmt 1;; exit_stmt 2;; exit_stmt 3.

(** The callback as a whole: the loop, then the re-arming [mod_timer]. *)
Definition update_stats_timer (env : tick_env) : K unit :=
  kmodify (fun k => set_sites_data (update_sites env (sites_data k)) k);;
  mod_timer.

(** *** [proc_mmap] *)

Section Paging.

(** [PAGE_SHIFT] comes from the kernel headers of the target. *)
Variable PAGE_SHIFT : Z.

Definition PAGE_SIZE : Z := ulong (Z.shiftl 1 PAGE_SHIFT).
Definition BUFFER_SIZE : Z := ulong (4 * PAGE_SIZE).

(** [remap_pfn_range]: [ok] tells whether the page tables can be set up;
    the C function returns nonzero on failure. *)
Definition remap_pfn_range (ok : bool) (vma : vm_area) (pfn size : Z) : K bool :=
  fun k => if ok
           then (false, set_vmas (mk_mapping (vm_start vma) pfn size (vm_page_prot vma) :: vmas k) k)
           else (true, k).

Definition proc_mmap (vma : vm_area) (remap_ok : bool) : K Z :=
  let size := ulong (vm_end vma - vm_start vma) in
  if BUFFER_SIZE <? size then
    printk "skma_fon: mmap size too large";;
    mret (- EINVAL)
  else
    k ← kget;
    let pfn := Z.shiftr (default 0 (shared_buffer k)) PAGE_SHIFT in
    failed ← remap_pfn_range remap_ok vma pfn size;
    if (failed : bool) then
      printk "skma_fon: mmap failed";;
      mret (- EAGAIN)
    else
      printk "skma_fon: mmap successful";;
      mret 0.

End Paging.

(** ** [proc_show] *)

(** What [proc_show] prints for one record: the arguments of its
    [seq_printf] calls (the header lines carry no data). *)
Record report_entry := mk_report_entry {
  e_site : string;
  e_timestamp : Z;
  e_throughput : Z;
  e_errors : Z;
  e_ber_errors : Z;
  e_utilization : spec_float;
  e_link : string
}.

Definition blank_entry : report_entry :=
  mk_report_entry "" 0 0 0 0 (S754_zero false) "".

(** The seven loads of the loop body of [proc_show], in program order. *)
Inductive rslot := RName | RTs | RThr | RErr | RBer | RUtil | RLink.

Definition rslots : list rslot := [RName; RTs; RThr; RErr; RBer; RUtil; RLink].

Definition read_slot (r : rslot) (s : site_stats) (e : report_entry) : report_entry :=
  match r with
  | RName => mk_report_entry (site_name s) (e_timestamp e) (e_throughput e) (e_errors e)
                             (e_ber_errors e) (e_utilization e) (e_link e)
  | RTs => mk_report_entry (e_site e) (timestamp s) (e_throughput e) (e_errors e)
                           (e_ber_errors e) (e_utilization e) (e_link e)
  | RThr => mk_report_entry (e_site e) (e_timestamp e) (throughput_gbps s) (e_errors e)
                            (e_ber_errors e) (e_utilization e) (e_link e)
  | RErr => mk_report_entry (e_site e) (e_timestamp e) (e_throughput e) (error_count s)
                            (e_ber_errors e) (e_utilization e) (e_link e)
  | RBer => mk_report_entry (e_site e) (e_timestamp e) (e_throughput e) (e_errors e)
                            (ber_errors s) (e_utilization e) (e_link e)
  | RUtil => mk_report_entry (e_site e) (e_timestamp e) (e_throughput e) (e_errors e)
                             (e_ber_errors e) (utilization s) (e_link e)
  | RLink => mk_report_entry (e_site e) (e_timestamp e) (e_throughput e) (e_errors e)
                             (e_ber_errors e) (e_utilization e)
                             (if link_status s =? 0 then "DOWN" else "UP")
  end.

(** One record printed with nothing else running in between. *)
Definition show_site (s : site_stats) : report_entry :=
  foldl (fun e r => read_slot r s e) blank_entry rslots.

Definition proc_show (st : store) : list report_entry :=
  (fun i => show_site (st !!! i)) <$> seq 0 NUM_SITES.

(** ** The callback, the reader and the unload path, interleaved

    The callback runs in timer context, [proc_show] and [skma_fon_exit] in
    process context, possibly on other CPUs; the module takes no lock.  One
    step of the model is one store of the callback, one load of the reader or
    one statement of the unload path; memory is sequentially consistent.  The
    re-arming [mod_timer] of the callback and its return are taken as one
    step. *)

Inductive cb_pc :=
| CbWrite (i : nat) (w : wslot)    (* about to do store [w] of record [i] *)
| CbRearm.                         (* about to call mod_timer and return *)

Definition cb_first : cb_pc :=
  if (0 <? NUM_SITES)%nat then CbWrite 0 WTs else CbRearm.

Definition cb_next (i : nat) (w : wslot) : cb_pc :=
  match w with
  | WTs => CbWrite i WThr
  | WThr => CbWrite i WErr
  | WErr => CbWrite i WBer
  | WBer => CbWrite i WUtil
  | WUtil => CbWrite i WLink
  | WLink => if (S i <? NUM_SITES)%nat then CbWrite (S i) WTs else CbRearm
  end.

Definition rd_next (i : nat) (r : rslot) : option (nat * rslot) :=
  match r with
  | RName => Some (i, RTs)
  | RTs => Some (i, RThr)
  | RThr => Some (i, RErr)
  | RErr => Some (i, RBer)
  | RBer => Some (i, RUtil)
  | RUtil => Some (i, RLink)
  | RLink => if (S i <? NUM_SITES)%nat then Some (S i, RName) else None
  end.

Record sys := mk_sys {
  ks : kstate;
  ticks : N;                       (* runs of the callback completed *)
  cb : option cb_pc;               (* the callback is running, and where *)
  rd : option (nat * rslot);       (* a proc_show is running, and where *)
  cur : report_entry;              (* the record the reader is printing *)
  rout : list report_entry;        (* the records the reader has printed *)
  exit_pc : nat                    (* statements of skma_fon_exit done *)
}.

Inductive event :=
| EFire       (* the timer expires: the kernel dequeues it and calls the callback *)
| ETimer      (* the callback does its next store, or re-arms and returns *)
| EOpen       (* a process starts reading the proc entry *)
| ERead       (* the reader does its next load *)
| EExit.      (* skma_fon_exit does its next statement *)

Definition with_ks (k : kstate) (s : sys) : sys :=
  mk_sys k (ticks s) (cb s) (rd s) (cur s) (rout s) (exit_pc s).

(** [envs n] holds what run number [n] of the callback draws.  [None] means
    that the event cannot happen in this state. *)
Definition step (envs : N -> tick_env) (e : event) (s : sys) : option sys :=
  match e with
  | EFire =>
      if timer_pending (ks s) && bool_decide (cb s = None) then
        Some (mk_sys (set_timer_pending false (ks s)) (ticks s) (Some cb_first)
                     (rd s) (cur s) (rout s) (exit_pc s))
      else None
  | ETimer =>
      match cb s with
      | Some (CbWrite i w) =>
          let st := alter (write_slot w (envs (ticks s) i)) i (sites_data (ks s)) in
          Some (mk_sys (set_sites_data st (ks s)) (ticks s) (Some (cb_next i w))
                       (rd s) (cur s) (rout s) (exit_pc s))
      | Some CbRearm =>
          Some (mk_sys (mod_timer (ks s)).2 (N.succ (ticks s)) None
                       (rd s) (cur s) (rout s) (exit_pc s))
      | None => None
      end
  | EOpen =>
      if bool_decide (rd s = None) && bool_decide (PROC_ENTRY ∈ procfs (ks s)) then
        Some (mk_sys (ks s) (ticks s) (cb s)
                     (if (0 <? NUM_SITES)%nat then Some (0%nat, RName) else None)
                     blank_entry [] (exit_pc s))
      else None
  | ERead =>
      match rd s with
      | Some (i, r) =>
          let e' := read_slot r (sites_data (ks s) !!! i) (cur s) in
          Some (mk_sys (ks s) (ticks s) (cb s) (rd_next i r)
                       (match r with RLink => blank_entry | _ => e' end)
                       (match r with RLink => rout s ++ [e'] | _ => rout s end)
                       (exit_pc s))
      | None => None
      end
  | EExit =>
      if (exit_pc s <? EXIT_STMTS)%nat
         && (bool_decide (exit_pc s ≠ 0%nat) || bool_decide (cb s = None)) then
        Some (mk_sys (exit_stmt (exit_pc s) (ks s)).2 (ticks s) (cb s)
                     (rd s) (cur s) (rout s) (S (exit_pc s)))
      else None
  end.

Fixpoint run (envs : N -> tick_env) (evs : list event) (s : sys) : option sys :=
  match evs with
  | [] => Some s
  | e :: evs' =>
      match step envs e s with
      | Some s' => run envs evs' s'
      | None => None
      end
  end.

(** The system once [skma_fon_init] has returned 0. *)
Definition boot (env : init_env) : sys :=
  mk_sys (skma_fon_init env k_blank).2 0%N None None blank_entry [] 0.

(** ** Reference values used by the statements below *)

(** [throughput / 2000 * 100] over the rationals. *)
Definition util_exact (t : Z) : Q := (inject_Z t / 2000 * 100)%Q.

(** Half a unit in the last place of a binary32 number in [64, 128). *)
Definition util_tol : Q := (1 # 262144)%Q.

(** The float [u] is in [40.0, 100.0) and within [util_tol] of the exact
    utilization of throughput [t]. *)
Definition util_check (t : Z) (u : spec_float) : bool :=
  Flt.leb (Flt.single_of_Z 40) u && Flt.ltb u (Flt.single_of_Z 100) &&
  match Flt.to_Q u with
  | Some q => Qle_bool 40 q && negb (Qle_bool 100 q)
              && Qle_bool (Qabs (q - util_exact t)) util_tol
  | None => false
  end.

(** The outcome of one run of the loop body as the specification words it:
    [s] is the record before, [s'] the record after. *)
Definition spec_tick_post (d : draws) (s s' : site_stats) : Prop :=
  800 <= throughput_gbps s' < 2000
  /\ 0 <= error_count s' - error_count s < 3
  /\ 0 <= ber_errors s' - ber_errors s < 2
  /\ link_status s' = 1
  /\ timestamp s' = now d
  /\ timestamp s <= timestamp s'.

(** Both counters of every record never decrease from one snapshot to the
    next, for the run started by [t0] and driven by [envs]. *)
Definition spec_counters_monotone (envs : N -> tick_env) (t0 : nat -> Z) : Prop :=
  forall n i s s',
    run_ticks envs n (init_store t0) !! i = Some s ->
    run_ticks envs (N.succ n) (init_store t0) !! i = Some s' ->
    error_count s <= error_count s' /\ ber_errors s <= ber_errors s'.

(** Draws with the largest increments, and a quiet clock. *)
Definition envs_max : N -> tick_env := fun _ _ => mk_draws 0 0 2 1.
Definition clock0 : nat -> Z := fun _ => 0.

(** A sample run: the clock starts at 100 and advances by 1 per run; the
    random words vary with run and site. *)
Definition envs_demo : N -> tick_env :=
  fun n i => mk_draws (101 + Z.of_N n) (7 + 1201 * Z.of_nat i + Z.of_N n)
                      (5 + Z.of_nat i) (3 + Z.of_N n).
Definition clock_demo : nat -> Z := fun _ => 100.

(** A record whose counters are at the top of their 32-bit range, stamped at
    second 100, and draws taken when the wall clock reads 50. *)
Definition stats_full : site_stats :=
  mk_site_stats "Dallas" 100 1000 4294967295 4294967295 1 (Flt.single_of_Z 50)
                (replicate 8 0).
Definition draws_back : draws := mk_draws 50 0 2 1.

(** Sample surroundings: every kernel call of [skma_fon_init] succeeds, the
    clock reads 100, pages are 4096 bytes. *)
Definition init_env_ok : init_env := mk_init_env true 1048576 clock_demo true true.
Definition k_loaded : kstate := (skma_fon_init init_env_ok k_blank).2.
Definition init_env_no_entry : init_env := mk_init_env true 1048576 clock_demo true false.
Definition vma_one_page : vm_area := mk_vm_area 139637976727552 139637976731648 37.
Definition vma_too_large : vm_area := mk_vm_area 0 16385 37.

(** ** Reading the interleaving model *)

(** The states an execution goes through, the first one included; it stops
    at the first event that cannot happen. *)
Fixpoint run_trace (envs : N -> tick_env) (evs : list event) (s : sys) : list sys :=
  s :: match evs with
       | [] => []
       | e :: evs' =>
           match step envs e s with
           | Some s' => run_trace envs evs' s'
           | None => []
           end
       end.

(** [skma_fon_exit] has returned from [del_timer_sync]. *)
Definition timer_stopped (s : sys) : Prop := (1 <= exit_pc s)%nat.

(** From the return of [del_timer_sync] on, the callback is neither running
    nor queued. *)
Definition quiescent (s : sys) : Prop :=
  timer_stopped s -> cb s = None /\ timer_pending (ks s) = false.

(** One full run of the callback while a reader starts, then the unload. *)
Definition sched_unload_1 : list event :=
  [EFire] ++ replicate 25 ETimer ++ [EOpen; ERead; ERead; EExit].
Definition sched_unload_2 : list event :=
  [ERead; EExit; ERead; EExit; EExit].
Definition state_of (o : option sys) : sys := default (boot init_env_ok) o.

(** *** One run of the callback against one reader *)

(** Field [r] of the printed entry [e] is the one of [a] or the one of [b]. *)
Definition field_ok (r : rslot) (e a b : report_entry) : Prop :=
  match r with
  | RName => e_site e = e_site a \/ e_site e = e_site b
  | RTs => e_timestamp e = e_timestamp a \/ e_timestamp e = e_timestamp b
  | RThr => e_throughput e = e_throughput a \/ e_throughput e = e_throughput b
  | RErr => e_errors e = e_errors a \/ e_errors e = e_errors b
  | RBer => e_ber_errors e = e_ber_errors a \/ e_ber_errors e = e_ber_errors b
  | RUtil => e_utilization e = e_utilization a \/ e_utilization e = e_utilization b
  | RLink => e_link e = e_link a \/ e_link e = e_link b
  end.

(** Every field of [e] taken by itself is the one of [a] or the one of [b]. *)
Definition fieldwise (e a b : report_entry) : Prop := forall r, field_ok r e a b.

Definition rslot_index (r : rslot) : nat :=
  match r with
  | RName => 0 | RTs => 1 | RThr => 2 | RErr => 3 | RBer => 4 | RUtil => 5 | RLink => 6
  end.

(** The fields the reader has loaded before it gets to [r] are fine. *)
Definition partial_ok (r : rslot) (e a b : report_entry) : Prop :=
  forall r', (rslot_index r' < rslot_index r)%nat -> field_ok r' e a b.

Definition wslot_index (w : wslot) : nat :=
  match w with
  | WTs => 0 | WThr => 1 | WErr => 2 | WBer => 3 | WUtil => 4 | WLink => 5
  end.

(** A record after the first [k] stores of the loop body. *)
Definition site_after (k : nat) (d : draws) (s : site_stats) : site_stats :=
  foldl (fun s w => write_slot w d s) s (take k wslots).

(** The store when the callback, started on [pre], has reached [pc]. *)
Definition store_at (pc : cb_pc) (env : tick_env) (pre : store) : store :=
  match pc with
  | CbWrite i w =>
      imap (fun j s => if (j <? i)%nat then update_site (env j) s
                       else if (j =? i)%nat then site_after (wslot_index w) (env j) s
                       else s) pre
  | CbRearm => update_sites env pre
  end.

Definition cb_pc_ok (pc : cb_pc) : Prop :=
  match pc with
  | CbWrite i _ => (i < NUM_SITES)%nat
  | CbRearm => True
  end.

(** Only the callback and the reader take steps. *)
Definition race_event (e : event) : Prop := e = ETimer \/ e = ERead.

(** The callback has just been entered and a reader has just been opened. *)
Definition race_start (s : sys) : Prop :=
  cb s = Some cb_first /\ rd s = Some (0%nat, RName) /\ rout s = []
  /\ length (sites_data (ks s)) = NUM_SITES.

(** The reader loads the name and the timestamp of record 0, the callback
    then rewrites record 0, and the reader loads the remaining fields. *)
Definition sched_torn : list event :=
  [EFire; EOpen; ERead; ERead] ++ replicate 6 ETimer ++ replicate 5 ERead.

(** The same steps from the point where callback and reader have started. *)
Definition sched_race : list event :=
  [ERead; ERead] ++ replicate 6 ETimer ++ replicate 5 ERead.
Definition race_demo_start : sys :=
  state_of (run envs_demo [EFire; EOpen] (boot init_env_ok)).

Global Instance rslot_eq_dec : EqDecision rslot.
Proof. solve_decision. Defined.

(** Every field of the record [x] is the one of [a] or the one of [b], as
    [proc_show] prints them. *)
Definition between (x a b : site_stats) : Prop :=
  fieldwise (show_site x) (show_site a) (show_site b).

(** The store while run number [n0] of the callback, entered on [pre], is
    under way, and once it has returned. *)
Definition store_inv (envs : N -> tick_env) (n0 : N) (pre : store) (s : sys) : Prop :=
  (exists pc, cb s = Some pc /\ cb_pc_ok pc /\ ticks s = n0
              /\ sites_data (ks s) = store_at pc (envs n0) pre)
  \/ (cb s = None /\ sites_data (ks s) = update_sites (envs n0) pre).

(** The reader between two stores [pre] and [post]: what it has printed, and
    what it has loaded of the record it is at. *)
Definition reader_inv (pre post : store) (s : sys) : Prop :=
  (forall j e, rout s !! j = Some e ->
               fieldwise e (show_site (pre !!! j)) (show_site (post !!! j)))
  /\ match rd s with
     | Some (i, r) =>
         (i < NUM_SITES)%nat /\ length (rout s) = i
         /\ partial_ok r (cur s) (show_site (pre !!! i)) (show_site (post !!! i))
     | None => True
     end.

(** What the reader prints for record 0 under [sched_torn]: the timestamp
    from before the run of the callback, everything else from after it. *)
Definition torn_entry : report_entry :=
  mk_report_entry "MicrosoftDC" 100 807 2 1 (utilization_of 807) "UP".

(** ** Further reference values *)

(** The record the seeding loop of [skma_fon_init] leaves at an index whose
    site is called [name], the clock reading [t]. *)
Definition seeded_stats (name : string) (t : Z) : site_stats :=
  mk_site_stats name (u64 t) 1000 0 0 1 (Flt.single_of_Z 50) (replicate 8 0).

(** What [proc_show] prints for a record whose link is up. *)
Definition entry_of (s : site_stats) : report_entry :=
  mk_report_entry (site_name s) (timestamp s) (throughput_gbps s) (error_count s)
                  (ber_errors s) (utilization s) "UP".

(** A module state as [skma_fon_init] leaves it, with one user mapping. *)
Definition k_mapped : kstate := (proc_mmap 12 vma_one_page true k_loaded).2.

(** The wall clock as site [i] sees it never runs backwards and stays within
    a u64: from the reading at initialisation through the readings of all
    runs of the callback. *)
Definition clock_steady (envs : N -> tick_env) (t0 : nat -> Z) (i : nat) : Prop :=
  0 <= t0 i
  /\ t0 i <= now (envs 0%N i)
  /\ (forall k, now (envs k i) <= now (envs (N.succ k) i))
  /\ (forall k, now (envs k i) < 2 ^ 64).

(** The increments the first [n] runs of the callback draw for site [i],
    added up over the integers. *)
Definition err_total (envs : N -> tick_env) (i : nat) (n : N) : Z :=
  N.peano_rect (fun _ => Z) 0 (fun k acc => acc + u32 (r_err (envs k i)) mod 3) n.
Definition ber_total (envs : N -> tick_env) (i : nat) (n : N) : Z :=
  N.peano_rect (fun _ => Z) 0 (fun k acc => acc + u32 (r_ber (envs k i)) mod 2) n.

(** A sample run whose clock advances by one second per run for a million
    runs and then stands still. *)
Definition envs_steady : N -> tick_env :=
  fun n i => mk_draws (101 + Z.min (Z.of_N n) 1000000) (7 + Z.of_nat i + Z.of_N n)
                      (5 + Z.of_N n) (3 + Z.of_nat i).

(** ** Invariants of the interleaving model *)

(** While [skma_fon_exit] has not started, the timer is queued or its
    callback is running. *)
Definition timer_alive (s : sys) : Prop :=
  exit_pc s = 0%nat -> timer_pending (ks s) = true \/ is_Some (cb s).

(** The buffer pointer is set, and the buffer is allocated until the last
    statement of [skma_fon_exit] has run. *)
Definition buffer_held (s : sys) : Prop :=
  is_Some (shared_buffer (ks s))
  /\ (exit_pc s <= EXIT_STMTS)%nat
  /\ ((exit_pc s < EXIT_STMTS)%nat -> heap_live (ks s) = true)
  /\ (exit_pc s = EXIT_STMTS -> heap_live (ks s) = false).

(** What every record keeps at every instant: its name, an up link and a
    throughput the module can draw or seed. *)
Definition record_sane (i : nat) (x : site_stats) : Prop :=
  Some (site_name x) = site_names !! i
  /\ link_status x = 1
  /\ 800 <= throughput_gbps x < 2000.

Definition store_sane (st : store) : Prop :=
  length st = NUM_SITES /\ forall i x, st !! i = Some x -> record_sane i x.

(** The same for a printed record. *)
Definition entry_sane (i : nat) (e : report_entry) : Prop :=
  Some (e_site e) = site_names !! i
  /\ e_link e = "UP"
  /\ 800 <= e_throughput e < 2000.

(** The fields of record [i] the reader has loaded before it gets to [r]. *)
Definition partial_sane (i : nat) (r : rslot) (e : report_entry) : Prop :=
  ((0 < rslot_index r)%nat -> Some (e_site e) = site_names !! i)
  /\ ((2 < rslot_index r)%nat -> 800 <= e_throughput e < 2000).

Definition reader_sane (s : sys) : Prop :=
  (forall j e, rout s !! j = Some e -> entry_sane j e)
  /\ match rd s with
     | Some (i, r) =>
         (i < NUM_SITES)%nat /\ length (rout s) = i /\ partial_sane i r (cur s)
     | None => True
     end.

(** Two runs of the callback, the second with a reader in its middle, and
    the start of the unload. *)
Definition sched_busy : list event :=
  [EFire] ++ replicate 25 ETimer ++ [EFire; EOpen] ++ replicate 9 ETimer
  ++ replicate 28 ERead ++ replicate 16 ETimer.

(** The steps the callback still has to take from [pc] on: the stores left
    for the record it is at, six for every record after it, and the
    re-arming [mod_timer]. *)
Definition cb_left (pc : cb_pc) : nat :=
  match pc with
  | CbWrite i w => (6 - wslot_index w) + 6 * (NUM_SITES - 1 - i) + 1
  | CbRearm => 1
  end.

(** The first statements of [skma_fon_exit] have run: the proc entry is
    gone. *)
Definition entry_removed (s : sys) : Prop :=
  proc_entry (ks s) = true
  /\ ((2 <= exit_pc s)%nat -> PROC_ENTRY ∉ procfs (ks s)).

(** A full run of the callback, a reader that finishes, and the unload. *)
Definition sched_unloaded : list event :=
  [EFire] ++ replicate 25 ETimer ++ [EOpen] ++ replicate 28 ERead
  ++ replicate 4 EExit.

(** A reader that goes through all four records while the callback runs,
    the two taking turns, until the callback has returned. *)
Definition sched_mixed : list event :=
  replicate 10 ETimer ++ replicate 14 ERead ++ replicate 10 ETimer
  ++ replicate 14 ERead ++ replicate 5 ETimer.




(** Between two runs of the callback the store of the model is the store
    after that many whole runs; during a run it is that store with the
    stores of the callback done so far. *)
Definition store_tracks_runs (envs : N -> tick_env) (t0 : nat -> Z) (s : sys) : Prop :=
  match cb s with
  | None => sites_data (ks s) = run_ticks envs (ticks s) (init_store t0)
  | Some pc =>
      cb_pc_ok pc
      /\ sites_data (ks s)
         = store_at pc (envs (ticks s)) (run_ticks envs (ticks s) (init_store t0))
  end.

(** * Properties *)

(** ** Machine integers *)

Lemma u32_range z : is_u32 (u32 z).
Proof. unfold is_u32, u32. apply Z.mod_pos_bound. lia. Qed.

Lemma u64_range z : is_u64 (u64 z).
Proof. unfold is_u64, u64. apply Z.mod_pos_bound. lia. Qed.

Lemma u32_small z : is_u32 z -> u32 z = z.
Proof. unfold is_u32, u32. intros H. apply Z.mod_small. lia. Qed.

Lemma u64_small z : is_u64 z -> u64 z = z.
Proof. unfold is_u64, u64. intros H. apply Z.mod_small. lia. Qed.

(** ** One record under the callback *)

Lemma update_site_eq d s :
  update_site d s =
  mk_site_stats (site_name s) (u64 (now d))
    (u32 (800 + u32 (r_thr d) mod 1200))
    (u32 (error_count s + u32 (r_err d) mod 3))
    (u32 (ber_errors s + u32 (r_ber d) mod 2))
    1
    (utilization_of (u32 (800 + u32 (r_thr d) mod 1200)))
    (reserved s).
Proof. reflexivity. Qed.

Lemma throughput_draw_range r : 800 <= u32 (800 + u32 r mod 1200) < 2000.
Proof.
  pose proof (Z.mod_pos_bound (u32 r) 1200 ltac:(lia)) as H.
  rewrite u32_small; [lia | unfold is_u32; lia].
Qed.

Lemma update_site_wf d s : wf_stats (update_site d s).
Proof.
  rewrite update_site_eq. unfold wf_stats. cbn.
  repeat split; try apply u32_range; try apply u64_range; lia.
Qed.

(** ** The store under the callback *)

Lemma update_sites_length env (st : store) : length (update_sites env st) = length st.
Proof. unfold update_sites, NUM_SITES. cbn [seq foldl]. by rewrite !length_alter. Qed.

Lemma update_sites_lookup env (st : store) i :
  (i < NUM_SITES)%nat ->
  update_sites env st !! i = update_site (env i) <$> st !! i.
Proof.
  unfold update_sites, NUM_SITES. cbn [seq foldl]. intros Hi.
  destruct i as [|[|[|[|i]]]]; try lia;
    repeat first [ rewrite list_lookup_alter_eq | rewrite list_lookup_alter_ne by lia ];
    reflexivity.
Qed.

Lemma update_sites_lookup_ge env (st : store) i :
  (NUM_SITES <= i)%nat -> update_sites env st !! i = st !! i.
Proof.
  unfold update_sites, NUM_SITES. cbn [seq foldl]. intros Hi.
  by rewrite !list_lookup_alter_ne by lia.
Qed.

Lemma update_sites_lookup_Some env (st : store) i s' :
  (i < NUM_SITES)%nat ->
  update_sites env st !! i = Some s' ->
  exists s, st !! i = Some s /\ s' = update_site (env i) s.
Proof.
  intros Hi. rewrite update_sites_lookup by done.
  destruct (st !! i) as [s|]; [|done]. intros [= <-]. eauto.
Qed.

Lemma run_ticks_0 envs st : run_ticks envs 0 st = st.
Proof. reflexivity. Qed.

Lemma run_ticks_succ envs n st :
  run_ticks envs (N.succ n) st = update_sites (envs n) (run_ticks envs n st).
Proof. unfold run_ticks. by rewrite N.peano_rect_succ. Qed.

Lemma run_ticks_length envs n st : length (run_ticks envs n st) = length st.
Proof.
  induction n as [|n IH] using N.peano_ind; [done|].
  by rewrite run_ticks_succ, update_sites_length.
Qed.

(** ** The store after initialisation *)

Lemma seed_sites_lookup t0 (st : store) i :
  (i < NUM_SITES)%nat ->
  seed_sites t0 st !! i = seed_site i (t0 i) <$> st !! i.
Proof.
  unfold seed_sites, NUM_SITES. cbn [seq foldl]. intros Hi.
  destruct i as [|[|[|[|i]]]]; try lia;
    repeat first [ rewrite list_lookup_alter_eq | rewrite list_lookup_alter_ne by lia ];
    reflexivity.
Qed.

Lemma init_store_length t0 : length (init_store t0) = NUM_SITES.
Proof.
  unfold init_store, seed_sites, NUM_SITES. cbn [seq foldl].
  rewrite !length_alter. reflexivity.
Qed.

Lemma init_store_lookup t0 i :
  (i < NUM_SITES)%nat ->
  init_store t0 !! i = Some (seed_site i (t0 i) zero_stats).
Proof.
  intros Hi. unfold init_store. rewrite seed_sites_lookup by done.
  unfold zero_store. by rewrite lookup_replicate_2.
Qed.

Lemma init_store_lookup_ge t0 i : (NUM_SITES <= i)%nat -> init_store t0 !! i = None.
Proof. intros Hi. apply lookup_ge_None. by rewrite init_store_length. Qed.

Lemma run_ticks_init_lookup_lt envs t0 n i s :
  run_ticks envs n (init_store t0) !! i = Some s -> (i < NUM_SITES)%nat.
Proof.
  intros H. apply lookup_lt_Some in H.
  by rewrite run_ticks_length, init_store_length in H.
Qed.

(** ** Utilization *)

Lemma util_check_all :
  forallb (fun t => util_check t (utilization_of t)) (seqZ 800 1200) = true.
Proof. vm_compute. reflexivity. Qed.

Lemma util_check_range t :
  800 <= t < 2000 -> util_check t (utilization_of t) = true.
Proof.
  intros Ht. pose proof util_check_all as H.
  rewrite forallb_forall in H. apply H.
  apply list_elem_of_In, elem_of_seqZ. lia.
Qed.

Lemma util_check_spec t u :
  util_check t u = true ->
  Flt.leb (Flt.single_of_Z 40) u = true
  /\ Flt.ltb u (Flt.single_of_Z 100) = true
  /\ exists q, Flt.to_Q u = Some q
       /\ (40 <= q)%Q /\ (q < 100)%Q
       /\ (Qabs (q - util_exact t) <= util_tol)%Q.
Proof.
  unfold util_check. intros H.
  apply andb_prop in H as [H Hq]. apply andb_prop in H as [H40 H100].
  destruct (Flt.to_Q u) as [q|]; [|discriminate].
  apply andb_prop in Hq as [Hq Htol]. apply andb_prop in Hq as [Hlo Hhi].
  repeat split; try done. exists q. repeat split.
  - by apply Qle_bool_iff.
  - apply Qnot_le_lt. intros Hle. apply Qle_bool_iff in Hle.
    rewrite Hle in Hhi. discriminate.
  - by apply Qle_bool_iff.
Qed.


(** A record whose utilization is the float computed from its throughput, the
    throughput being one the module can store. *)
Lemma update_site_util d s :
  utilization (update_site d s) = utilization_of (throughput_gbps (update_site d s))
  /\ 800 <= throughput_gbps (update_site d s) < 2000.
Proof. rewrite update_site_eq. cbn. split; [done | apply throughput_draw_range]. Qed.




(** C10: after a run of the callback on any store, the utilization of every
    record is at least 40.0 and below 100.0, as a float and as the number it
    stands for. *)
Theorem utilization_bounded_after_tick env (st : store) i s :
  (i < NUM_SITES)%nat ->
  update_sites env st !! i = Some s ->
  800 <= throughput_gbps s < 2000
  /\ Flt.leb (Flt.single_of_Z 40) (utilization s) = true
  /\ Flt.ltb (utilization s) (Flt.single_of_Z 100) = true
  /\ exists q, Flt.to_Q (utilization s) = Some q /\ (40 <= q)%Q /\ (q < 100)%Q.
Proof.
  intros Hi Hs. apply update_sites_lookup_Some in Hs as (s0 & _ & ->); [|done].
  destruct (update_site_util (env i) s0) as [Hu Ht]. split; [done|].
  rewrite Hu.
  destruct (util_check_spec _ _ (util_check_range _ Ht)) as (H40 & H100 & q & Hq & Hlo & Hhi & _).
  eauto 10.
Qed.

Lemma utilization_bounded_after_tick_witness :
  let s := update_sites (envs_demo 0) (init_store clock_demo) !!! 3%nat in
  800 <= throughput_gbps s < 2000
  /\ Flt.leb (Flt.single_of_Z 40) (utilization s) = true
  /\ Flt.ltb (utilization s) (Flt.single_of_Z 100) = true
  /\ exists q, Flt.to_Q (utilization s) = Some q /\ (40 <= q)%Q /\ (q < 100)%Q.
Proof.
  intros s.
  apply (utilization_bounded_after_tick (envs_demo 0) (init_store clock_demo) 3).
  - unfold NUM_SITES. lia.
  - vm_compute. reflexivity.
Defined.

(** ** One run of the loop body (the sampler) *)

Lemma counter_step_mod c r m :
  0 < m <= 3 -> exists k, 0 <= k < m /\ u32 (c + u32 r mod m) = (c + k) mod 2 ^ 32.
Proof. intros Hm. exists (u32 r mod m). split; [apply Z.mod_pos_bound; lia | done]. Qed.

Lemma counter_step_exact c r m :
  0 < m -> is_u32 c -> c + (m - 1) < 2 ^ 32 ->
  0 <= u32 (c + u32 r mod m) - c < m.
Proof.
  intros Hm Hc Hroom. pose proof (Z.mod_pos_bound (u32 r) m Hm).
  rewrite u32_small; [lia | unfold is_u32 in *; lia].
Qed.

(** C6, as far as the code goes: one run of the loop body on a well-formed
    record stores a throughput in [800, 2000) and link status 1, adds a value
    in [0, 3) to the error count and a value in [0, 2) to the BER count
    modulo 2^32, and stores the wall-clock seconds (as a u64).  When neither
    32-bit counter is about to wrap and the wall clock is not behind the
    stored timestamp, this is the outcome the specification words. *)
Theorem update_site_post d s :
  wf_stats s ->
  800 <= throughput_gbps (update_site d s) < 2000
  /\ link_status (update_site d s) = 1
  /\ (exists k, 0 <= k < 3
        /\ error_count (update_site d s) = (error_count s + k) mod 2 ^ 32)
  /\ (exists k, 0 <= k < 2
        /\ ber_errors (update_site d s) = (ber_errors s + k) mod 2 ^ 32)
  /\ timestamp (update_site d s) = now d mod 2 ^ 64
  /\ (error_count s + 2 < 2 ^ 32 -> ber_errors s + 1 < 2 ^ 32 ->
      timestamp s <= now d < 2 ^ 64 ->
      spec_tick_post d s (update_site d s)).
Proof.
  intros (Hts & _ & Herr & Hber & _). rewrite update_site_eq. cbn.
  split; [apply throughput_draw_range|]. split; [done|].
  split; [apply counter_step_mod; lia|]. split; [apply counter_step_mod; lia|].
  split; [done|]. intros He Hb Hnow.
  unfold spec_tick_post. cbn.
  split; [apply throughput_draw_range|].
  split; [apply counter_step_exact; [lia | done | lia]|].
  split; [apply counter_step_exact; [lia | done | lia]|].
  split; [done|].
  unfold is_u64 in Hts. rewrite u64_small by (unfold is_u64; lia). lia.
Qed.

Lemma update_site_post_witness :
  spec_tick_post (envs_demo 0 1%nat) (seed_site 1%nat 100 zero_stats)
                 (update_site (envs_demo 0 1%nat) (seed_site 1%nat 100 zero_stats)).
Proof.
  refine (proj2 (proj2 (proj2 (proj2 (proj2
            (update_site_post (envs_demo 0 1%nat) (seed_site 1%nat 100 zero_stats) _))))) _ _ _).
  - vm_compute. repeat split; discriminate || reflexivity.
  - vm_compute. reflexivity.
  - vm_compute. reflexivity.
  - vm_compute. split; discriminate || reflexivity.
Defined.

(** C6 fails as worded: on a record whose counters are 2^32 - 1 and whose
    timestamp is ahead of the wall clock, both counters and the timestamp go
    down. *)
Lemma update_site_post_counterexample :
  wf_stats stats_full
  /\ error_count (update_site draws_back stats_full) = 1
  /\ ber_errors (update_site draws_back stats_full) = 0
  /\ timestamp (update_site draws_back stats_full) = 50
  /\ ~ spec_tick_post draws_back stats_full (update_site draws_back stats_full).
Proof.
  split; [vm_compute; repeat split; discriminate || reflexivity|].
  split; [reflexivity|]. split; [reflexivity|]. split; [reflexivity|].
  unfold spec_tick_post. rewrite update_site_eq. cbn.
  intros (_ & H & _). vm_compute in H. destruct H as [H _]. apply H. reflexivity.
Qed.

(** ** Site names *)

Lemma update_site_name d s : site_name (update_site d s) = site_name s.
Proof. reflexivity. Qed.

Lemma update_sites_names env (st : store) :
  site_name <$> update_sites env st = site_name <$> st.
Proof.
  apply list_eq. intros i. rewrite !list_lookup_fmap.
  destruct (decide (i < NUM_SITES)%nat) as [Hi|Hi].
  - rewrite update_sites_lookup by done. by destruct (st !! i).
  - rewrite update_sites_lookup_ge by lia. done.
Qed.

Lemma init_store_names t0 : site_name <$> init_store t0 = site_names.
Proof.
  apply list_eq. intros i. rewrite list_lookup_fmap.
  destruct (decide (i < NUM_SITES)%nat) as [Hi|Hi].
  - rewrite init_store_lookup by done. unfold NUM_SITES in Hi.
    destruct i as [|[|[|[|i]]]]; try lia; reflexivity.
  - rewrite init_store_lookup_ge by lia. symmetry. apply lookup_ge_None.
    unfold NUM_SITES in Hi. cbn. lia.
Qed.

(** C8: after initialisation and any number of runs of the callback the
    store holds the four names of [site_names], index by index, and nothing
    else; and a run of the callback on any store leaves every name, and the
    number of records, as it found them. *)
Theorem site_names_fixed :
  (forall envs t0 n, site_name <$> run_ticks envs n (init_store t0) = site_names)
  /\ (forall env (st : store),
        site_name <$> update_sites env st = site_name <$> st
        /\ length (update_sites env st) = length st).
Proof.
  split.
  - intros envs t0 n. induction n as [|n IH] using N.peano_ind.
    + apply init_store_names.
    + by rewrite run_ticks_succ, update_sites_names.
  - intros env st. split; [apply update_sites_names | apply update_sites_length].
Qed.

(** ** The cumulative counters *)

(** After [n] runs from the initial store a counter has received at most [n]
    increments. *)
Lemma counters_bounded envs t0 n i s :
  run_ticks envs n (init_store t0) !! i = Some s ->
  0 <= error_count s <= 2 * Z.of_N n /\ 0 <= ber_errors s <= Z.of_N n.
Proof.
  revert s. induction n as [|n IH] using N.peano_ind; intros s Hs.
  - pose proof (run_ticks_init_lookup_lt envs t0 0 i s Hs) as Hi.
    rewrite run_ticks_0, init_store_lookup in Hs by done.
    injection Hs as <-. cbn. lia.
  - pose proof (run_ticks_init_lookup_lt _ _ _ _ _ Hs) as Hi.
    rewrite run_ticks_succ in Hs.
    apply update_sites_lookup_Some in Hs as (s0 & Hs0 & ->); [|done].
    destruct (IH _ Hs0) as [He Hb]. rewrite update_site_eq. cbn.
    pose proof (Z.mod_pos_bound (u32 (r_err (envs n i))) 3 ltac:(lia)).
    pose proof (Z.mod_pos_bound (u32 (r_ber (envs n i))) 2 ltac:(lia)).
    pose proof (u32_range (error_count s0 + u32 (r_err (envs n i)) mod 3)) as [? _].
    pose proof (u32_range (ber_errors s0 + u32 (r_ber (envs n i)) mod 2)) as [? _].
    unfold u32 at 1 3.
    pose proof (Z.mod_le (error_count s0 + u32 (r_err (envs n i)) mod 3) (2 ^ 32)
                  ltac:(lia) ltac:(lia)).
    pose proof (Z.mod_le (ber_errors s0 + u32 (r_ber (envs n i)) mod 2) (2 ^ 32)
                  ltac:(lia) ltac:(lia)).
    unfold u32 in *. lia.
Qed.

(** C4, as far as the code goes: over the first 2^31 - 1 runs of the callback
    after initialisation (some 68 years at one run per second) neither
    counter of any record decreases from one snapshot to the next. *)
Theorem counters_monotone_before_wrap envs t0 n i s s' :
  (N.succ n < 2 ^ 31)%N ->
  run_ticks envs n (init_store t0) !! i = Some s ->
  run_ticks envs (N.succ n) (init_store t0) !! i = Some s' ->
  error_count s <= error_count s' /\ ber_errors s <= ber_errors s'.
Proof.
  intros Hn Hs Hs'.
  pose proof (run_ticks_init_lookup_lt _ _ _ _ _ Hs) as Hi.
  rewrite run_ticks_succ in Hs'.
  apply update_sites_lookup_Some in Hs' as (s0 & Hs0 & ->); [|done].
  assert (s0 = s) as -> by congruence.
  destruct (counters_bounded _ _ _ _ _ Hs) as [He Hb].
  rewrite update_site_eq. cbn.
  pose proof (Z.mod_pos_bound (u32 (r_err (envs n i))) 3 ltac:(lia)).
  pose proof (Z.mod_pos_bound (u32 (r_ber (envs n i))) 2 ltac:(lia)).
  change (2 ^ 31)%N with 2147483648%N in Hn.
  assert (Z.of_N n + 1 < 2 ^ 31) by lia.
  rewrite (u32_small (error_count s + _)) by (unfold is_u32; lia).
  rewrite (u32_small (ber_errors s + _)) by (unfold is_u32; lia).
  lia.
Qed.

Lemma counters_monotone_before_wrap_witness :
  let s := run_ticks envs_demo 2 (init_store clock_demo) !!! 0%nat in
  let s' := run_ticks envs_demo 3 (init_store clock_demo) !!! 0%nat in
  error_count s <= error_count s' /\ ber_errors s <= ber_errors s'.
Proof.
  intros s s'.
  apply (counters_monotone_before_wrap envs_demo clock_demo 2 0 s s').
  - vm_compute. reflexivity.
  - vm_compute. reflexivity.
  - vm_compute. reflexivity.
Defined.

(** With the largest draws the error count after [n] runs is [2 n] modulo
    2^32. *)
Lemma error_count_envs_max n i :
  (i < NUM_SITES)%nat ->
  exists s, run_ticks envs_max n (init_store clock0) !! i = Some s
            /\ error_count s = (2 * Z.of_N n) mod 2 ^ 32.
Proof.
  intros Hi. induction n as [|n (s & Hs & He)] using N.peano_ind.
  - rewrite run_ticks_0, init_store_lookup by done. eexists. split; [done|]. reflexivity.
  - rewrite run_ticks_succ, update_sites_lookup, Hs by done.
    eexists. split; [reflexivity|]. rewrite update_site_eq. cbn.
    rewrite He. change (u32 2 mod 3) with 2. unfold u32.
    rewrite Zplus_mod_idemp_l. f_equal. lia.
Qed.

(** C4 fails as worded: the counters are 32 bits wide.  With two errors per
    run the error count of site 0 is 2^32 - 2 after 2^31 - 1 runs and 0 after
    one more. *)
Lemma counters_monotone_counterexample :
  (exists s s',
      run_ticks envs_max 2147483647 (init_store clock0) !! 0%nat = Some s
      /\ run_ticks envs_max 2147483648 (init_store clock0) !! 0%nat = Some s'
      /\ error_count s = 4294967294 /\ error_count s' = 0)
  /\ ~ spec_counters_monotone envs_max clock0.
Proof.
  destruct (error_count_envs_max 2147483647 0 ltac:(unfold NUM_SITES; lia)) as (s & Hs & He).
  destruct (error_count_envs_max (N.succ 2147483647) 0 ltac:(unfold NUM_SITES; lia))
    as (s' & Hs' & He').
  change (2 * Z.of_N 2147483647) with 4294967294 in He.
  change (2 * Z.of_N (N.succ 2147483647)) with 4294967296 in He'.
  change (4294967294 mod 2 ^ 32) with 4294967294 in He.
  change (4294967296 mod 2 ^ 32) with 0 in He'.
  split.
  - exists s, s'. change 2147483648%N with (N.succ 2147483647).
    exact (conj Hs (conj Hs' (conj He He'))).
  - intros H. destruct (H _ _ _ _ Hs Hs') as [Hle _]. lia.
Qed.

(** ** Start-up *)

Lemma skma_fon_init_result env :
  (skma_fon_init env k_blank).1 =
  if kmalloc_ok env && proc_mkdir_ok env && proc_create_ok env then 0 else - ENOMEM.
Proof. destruct env as [[] phys t0 [] []]; reflexivity. Qed.

(** C7: whichever of the three kernel calls of [skma_fon_init] fails, the
    function returns an error, and then the buffer is not allocated, no proc
    name is registered and the timer is not queued. *)
Theorem init_failure_unwinds env :
  (skma_fon_init env k_blank).1 <> 0 ->
  (kmalloc_ok env && proc_mkdir_ok env && proc_create_ok env = false)
  /\ (skma_fon_init env k_blank).1 = - ENOMEM
  /\ heap_live (skma_fon_init env k_blank).2 = false
  /\ procfs (skma_fon_init env k_blank).2 = []
  /\ timer_pending (skma_fon_init env k_blank).2 = false.
Proof.
  destruct env as [[] phys t0 [] []]; intros H; try (exfalso; apply H; reflexivity);
    repeat split; reflexivity.
Qed.

Lemma init_failure_unwinds_witness :
  (skma_fon_init init_env_no_entry k_blank).1 = - ENOMEM
  /\ heap_live (skma_fon_init init_env_no_entry k_blank).2 = false
  /\ procfs (skma_fon_init init_env_no_entry k_blank).2 = [].
Proof.
  destruct (init_failure_unwinds init_env_no_entry) as (_ & Hr & Hh & Hp & _).
  - vm_compute. discriminate.
  - exact (conj Hr (conj Hh Hp)).
Defined.

Lemma init_success env :
  (skma_fon_init env k_blank).1 = 0 ->
  heap_live (skma_fon_init env k_blank).2 = true
  /\ sites_data (skma_fon_init env k_blank).2 = init_store (seed_now env)
  /\ procfs (skma_fon_init env k_blank).2 = [PROC_ENTRY; PROC_DIR_NAME]
  /\ timer_pending (skma_fon_init env k_blank).2 = true.
Proof.
  destruct env as [[] phys t0 [] []]; intros H; try discriminate H.
  repeat split; reflexivity.
Qed.

(** ** [proc_mmap] *)

Section PagingFacts.

Variable PAGE_SHIFT : Z.

Lemma proc_mmap_cases vma ok k :
  let size := ulong (vm_end vma - vm_start vma) in
  proc_mmap PAGE_SHIFT vma ok k =
  if BUFFER_SIZE PAGE_SHIFT <? size then
    (- EINVAL, set_klog (klog k ++ ["skma_fon: mmap size too large"]) k)
  else if ok then
    (0, set_klog (klog k ++ ["skma_fon: mmap successful"])
          (set_vmas (mk_mapping (vm_start vma)
                       (Z.shiftr (default 0 (shared_buffer k)) PAGE_SHIFT)
                       size (vm_page_prot vma) :: vmas k) k))
  else (- EAGAIN, set_klog (klog k ++ ["skma_fon: mmap failed"]) k).
Proof.
  intros size. unfold proc_mmap. fold size.
  destruct (BUFFER_SIZE PAGE_SHIFT <? size); [reflexivity|].
  destruct ok; reflexivity.
Qed.

(** C2, as far as the code goes: [proc_mmap] returns -EINVAL exactly when
    the requested length exceeds [BUFFER_SIZE]; for a length within
    [BUFFER_SIZE] it returns 0 when [remap_pfn_range] succeeds and -EAGAIN
    when it fails. *)
Theorem proc_mmap_result vma ok k :
  let size := ulong (vm_end vma - vm_start vma) in
  ((proc_mmap PAGE_SHIFT vma ok k).1 = - EINVAL <-> BUFFER_SIZE PAGE_SHIFT < size)
  /\ (size <= BUFFER_SIZE PAGE_SHIFT ->
      (proc_mmap PAGE_SHIFT vma ok k).1 = if ok then 0 else - EAGAIN).
Proof.
  intros size. rewrite proc_mmap_cases. fold size.
  destruct (Z.ltb_spec (BUFFER_SIZE PAGE_SHIFT) size) as [Hlt|Hge].
  - split; [done | lia].
  - split; [|by destruct ok].
    split; [|lia]. destruct ok; cbn; unfold EINVAL, EAGAIN; lia.
Qed.

(** C9: a request longer than [BUFFER_SIZE] is answered with -EINVAL, and
    the only thing the call changes is the kernel log: the records, the
    buffer, the installed mappings, the proc names and the timer are as
    before. *)
Theorem proc_mmap_too_large_no_change vma ok k :
  BUFFER_SIZE PAGE_SHIFT < ulong (vm_end vma - vm_start vma) ->
  (proc_mmap PAGE_SHIFT vma ok k).1 = - EINVAL
  /\ sites_data (proc_mmap PAGE_SHIFT vma ok k).2 = sites_data k
  /\ vmas (proc_mmap PAGE_SHIFT vma ok k).2 = vmas k
  /\ (proc_mmap PAGE_SHIFT vma ok k).2
     = set_klog (klog k ++ ["skma_fon: mmap size too large"]) k.
Proof.
  intros Hlt. rewrite proc_mmap_cases.
  apply Z.ltb_lt in Hlt. rewrite Hlt. done.
Qed.

End PagingFacts.

Lemma proc_mmap_result_witness :
  (proc_mmap 12 vma_one_page true k_loaded).1 = 0.
Proof.
  refine (proj2 (proc_mmap_result 12 vma_one_page true k_loaded) _).
  vm_compute. discriminate.
Defined.

(** C2 fails as worded: one page is within the four pages of the buffer, yet
    the call does not succeed when [remap_pfn_range] fails, and it installs
    no mapping. *)
Lemma proc_mmap_result_counterexample :
  ulong (vm_end vma_one_page - vm_start vma_one_page) = 4096
  /\ BUFFER_SIZE 12 = 16384
  /\ (proc_mmap 12 vma_one_page false k_loaded).1 = - EAGAIN
  /\ (proc_mmap 12 vma_one_page false k_loaded).1 <> 0
  /\ vmas (proc_mmap 12 vma_one_page false k_loaded).2 = [].
Proof. vm_compute. repeat split; discriminate || reflexivity. Qed.

Lemma proc_mmap_too_large_no_change_witness :
  (proc_mmap 12 vma_too_large true k_loaded).1 = - EINVAL
  /\ sites_data (proc_mmap 12 vma_too_large true k_loaded).2 = sites_data k_loaded
  /\ vmas (proc_mmap 12 vma_too_large true k_loaded).2 = vmas k_loaded
  /\ (proc_mmap 12 vma_too_large true k_loaded).2
     = set_klog (klog k_loaded ++ ["skma_fon: mmap size too large"]) k_loaded.
Proof.
  apply (proc_mmap_too_large_no_change 12 vma_too_large true k_loaded).
  vm_compute. reflexivity.
Defined.

(** ** Unloading: the timer is stopped before the buffer is freed *)

Ltac k_unfold :=
  unfold exit_stmt;
  unfold mbind, K_bind, mret, K_ret, kget, kmodify, printk, kfree, remove_proc_entry,
    del_timer_sync, mod_timer; cbn.

Lemma exit_stmt_sites_data pc k : sites_data (exit_stmt pc k).2 = sites_data k.
Proof.
  destruct pc as [|[|[|[|pc]]]]; try reflexivity.
  - k_unfold. by destruct (proc_entry k).
  - k_unfold. by destruct (proc_dir k).
  - k_unfold. by destruct (shared_buffer k).
Qed.

Lemma exit_stmt_timer_pending pc k :
  (1 <= pc)%nat -> timer_pending (exit_stmt pc k).2 = timer_pending k.
Proof.
  intros Hpc. destruct pc as [|[|[|[|pc]]]]; try reflexivity; try lia.
  - k_unfold. by destruct (proc_entry k).
  - k_unfold. by destruct (proc_dir k).
  - k_unfold. by destruct (shared_buffer k).
Qed.

Lemma exit_stmt_0_timer_pending k : timer_pending (exit_stmt 0 k).2 = false.
Proof. reflexivity. Qed.

Lemma step_exit_pc envs e s s' :
  step envs e s = Some s' -> (exit_pc s <= exit_pc s')%nat.
Proof.
  destruct e; cbn; intros H.
  - destruct (timer_pending (ks s) && bool_decide (cb s = None)); simplify_eq; cbn; lia.
  - destruct (cb s) as [[i w|]|]; simplify_eq; cbn; lia.
  - destruct (bool_decide (rd s = None) && _); simplify_eq; cbn; lia.
  - destruct (rd s) as [[i r]|]; simplify_eq; cbn; lia.
  - destruct (_ && _); simplify_eq; cbn; lia.
Qed.

Lemma step_quiescent envs e s s' :
  step envs e s = Some s' -> quiescent s -> quiescent s'.
Proof.
  unfold quiescent, timer_stopped. destruct e; cbn; intros H Hq.
  - destruct (timer_pending (ks s)) eqn:Hp; cbn in H; [|done].
    case_bool_decide; simplify_eq. cbn. intros Hs.
    destruct (Hq Hs) as [_ Hp']. congruence.
  - destruct (cb s) as [[i w|]|] eqn:Hcb; simplify_eq; cbn; intros Hs;
      destruct (Hq Hs) as [? _]; done.
  - destruct (bool_decide (rd s = None) && _); simplify_eq. done.
  - destruct (rd s) as [[i r]|]; simplify_eq. done.
  - destruct (_ && _) eqn:Hg; [|done]. simplify_eq. cbn. intros _.
    apply andb_prop in Hg as [_ Hg].
    destruct (exit_pc s) as [|pc] eqn:Hpc.
    + cbn in Hg. apply bool_decide_eq_true in Hg. done.
    + destruct (Hq ltac:(lia)) as [Hc Hp]. split; [done|].
      rewrite exit_stmt_timer_pending by lia. done.
Qed.

Lemma step_stopped_sites_data envs e s s' :
  step envs e s = Some s' -> quiescent s -> timer_stopped s ->
  sites_data (ks s') = sites_data (ks s).
Proof.
  intros H Hq Hs. destruct (Hq Hs) as [Hc Hp]. destruct e; cbn in H.
  - rewrite Hp in H. done.
  - rewrite Hc in H. done.
  - destruct (bool_decide (rd s = None) && _); simplify_eq. done.
  - destruct (rd s) as [[i r]|]; simplify_eq. done.
  - destruct (_ && _); simplify_eq. cbn. apply exit_stmt_sites_data.
Qed.

Lemma run_quiescent envs evs s s' :
  run envs evs s = Some s' -> quiescent s -> quiescent s'.
Proof.
  revert s. induction evs as [|e evs IH]; intros s H Hq; cbn in H.
  - by simplify_eq.
  - destruct (step envs e s) as [s1|] eqn:Hstep; [|done].
    eauto using step_quiescent.
Qed.

Lemma run_stopped_sites_data envs evs s s' :
  run envs evs s = Some s' -> quiescent s -> timer_stopped s ->
  timer_stopped s' /\ sites_data (ks s') = sites_data (ks s).
Proof.
  revert s. induction evs as [|e evs IH]; intros s H Hq Hs; cbn in H.
  - by simplify_eq.
  - destruct (step envs e s) as [s1|] eqn:Hstep; [|done].
    assert (timer_stopped s1) as Hs1.
    { unfold timer_stopped in *. pose proof (step_exit_pc _ _ _ _ Hstep). lia. }
    destruct (IH s1 H (step_quiescent _ _ _ _ Hstep Hq) Hs1) as [? ->].
    split; [done|]. eauto using step_stopped_sites_data.
Qed.

Lemma boot_quiescent env : quiescent (boot env).
Proof. unfold quiescent, timer_stopped. cbn. lia. Qed.

(** C3: in every execution of the loaded module, once [skma_fon_exit] has
    returned from [del_timer_sync] the callback is not running and not
    queued in any later state, so no store of the callback happens after
    that point: the records are the ones seen when [del_timer_sync]
    returned, up to and beyond the [kfree], which therefore never overlaps a
    run of the callback. *)
Theorem stop_then_release env envs evs1 evs2 s1 s2 :
  run envs evs1 (boot env) = Some s1 ->
  timer_stopped s1 ->
  run envs evs2 s1 = Some s2 ->
  sites_data (ks s2) = sites_data (ks s1)
  /\ cb s2 = None
  /\ timer_pending (ks s2) = false.
Proof.
  intros H1 Hs H2.
  pose proof (run_quiescent _ _ _ _ H1 (boot_quiescent env)) as Hq1.
  destruct (run_stopped_sites_data _ _ _ _ H2 Hq1 Hs) as [Hs2 Hsd].
  split; [done|]. exact (run_quiescent _ _ _ _ H2 Hq1 Hs2).
Qed.

Lemma stop_then_release_witness :
  let s1 := state_of (run envs_demo sched_unload_1 (boot init_env_ok)) in
  let s2 := state_of (run envs_demo sched_unload_2 s1) in
  sites_data (ks s2) = sites_data (ks s1)
  /\ cb s2 = None
  /\ timer_pending (ks s2) = false.
Proof.
  intros s1 s2.
  apply (stop_then_release init_env_ok envs_demo sched_unload_1 sched_unload_2 s1 s2).
  - vm_compute. reflexivity.
  - vm_compute. lia.
  - vm_compute. reflexivity.
Defined.

(** ** The steps of the model and the C functions

    Left alone, the steps of the callback amount to [update_stats_timer], the
    steps of the reader to [proc_show] and the steps of the unload path to
    [skma_fon_exit]. *)

Lemma alter_update_site d i (st : store) :
  alter (write_slot WLink d) i
    (alter (write_slot WUtil d) i
      (alter (write_slot WBer d) i
        (alter (write_slot WErr d) i
          (alter (write_slot WThr d) i
            (alter (write_slot WTs d) i st)))))
  = alter (update_site d) i st.
Proof. rewrite !list_alter_alter_eq. reflexivity. Qed.

Lemma run_callback_alone envs s :
  cb s = Some cb_first ->
  run envs (replicate 25 ETimer) s
  = Some (mk_sys (update_stats_timer (envs (ticks s)) (ks s)).2 (N.succ (ticks s)) None
                 (rd s) (cur s) (rout s) (exit_pc s)).
Proof.
  destruct s as [k n c r e o x]. cbn [cb]. intros ->.
  cbn -[alter write_slot update_site update_stats_timer].
  rewrite !alter_update_site. reflexivity.
Qed.

Lemma run_reader_alone envs s :
  rd s = Some (0%nat, RName) -> rout s = [] ->
  run envs (replicate 28 ERead) s
  = Some (mk_sys (ks s) (ticks s) (cb s) None blank_entry
                 (proc_show (sites_data (ks s))) (exit_pc s)).
Proof.
  destruct s as [k n c r e o x]. cbn [rd rout]. intros -> ->.
  vm_compute. reflexivity.
Qed.

Lemma run_exit_alone envs s :
  cb s = None -> exit_pc s = 0%nat ->
  run envs (replicate 4 EExit) s
  = Some (mk_sys (skma_fon_exit (ks s)).2 (ticks s) None (rd s) (cur s) (rout s) 4).
Proof.
  destruct s as [k n c r e o x]. cbn [cb exit_pc]. intros -> ->.
  destruct k as [h b sd [] [] fs tp vm lg]; destruct b; reflexivity.
Qed.

(** ** The reader against a running callback *)

Local Arguments Nat.ltb : simpl never.

Lemma site_after_between k d s : between (site_after k d s) s (update_site d s).
Proof.
  do 7 (destruct k as [|k]; [intros []; cbn; auto|]).
  intros []; cbn; auto.
Qed.

Lemma site_after_0 d s : site_after 0 d s = s.
Proof. reflexivity. Qed.

Lemma site_after_all d s : site_after 6 d s = update_site d s.
Proof. reflexivity. Qed.

Lemma write_slot_site_after w d s :
  write_slot w d (site_after (wslot_index w) d s) = site_after (S (wslot_index w)) d s.
Proof. destruct w; reflexivity. Qed.

Lemma between_refl_l x b : between x x b.
Proof. intros []; cbn; auto. Qed.

Lemma between_refl_r x a : between x a x.
Proof. intros []; cbn; auto. Qed.

Lemma read_slot_same r x e a b :
  between x a b -> field_ok r (read_slot r x e) (show_site a) (show_site b).
Proof. intros H. specialize (H r). destruct r; exact H. Qed.

Lemma read_slot_other r r' x e a b :
  r <> r' -> field_ok r' e a b -> field_ok r' (read_slot r x e) a b.
Proof. intros Hne H. destruct r, r'; try done. Qed.

Lemma rslot_index_inj r r' : rslot_index r = rslot_index r' -> r = r'.
Proof. destruct r, r'; cbn; congruence. Qed.

Lemma read_slot_partial r x e a b :
  between x a b ->
  partial_ok r e (show_site a) (show_site b) ->
  forall r', (rslot_index r' <= rslot_index r)%nat ->
             field_ok r' (read_slot r x e) (show_site a) (show_site b).
Proof.
  intros Hx Hp r' Hle. destruct (decide (r = r')) as [<-|Hne].
  - by apply read_slot_same.
  - apply read_slot_other; [done|]. apply Hp.
    assert (rslot_index r' <> rslot_index r) by (intros ?; apply Hne; symmetry; by apply rslot_index_inj).
    lia.
Qed.

Section Race.

Variable envs : N -> tick_env.
Variable n0 : N.
Variable pre : store.
Hypothesis pre_length : length pre = NUM_SITES.

Local Abbreviation env := (envs n0).
Local Abbreviation post := (update_sites (envs n0) pre).

Lemma store_at_lookup i w j :
  store_at (CbWrite i w) env pre !! j =
  (fun s => if (j <? i)%nat then update_site (env j) s
            else if (j =? i)%nat then site_after (wslot_index w) (env j) s
            else s) <$> pre !! j.
Proof. unfold store_at. by rewrite list_lookup_imap. Qed.

Lemma store_at_first : store_at cb_first env pre = pre.
Proof.
  apply list_eq. intros j. change cb_first with (CbWrite 0 WTs).
  rewrite store_at_lookup. destruct (pre !! j) as [s|]; [|done]. cbn -[Nat.ltb Nat.eqb site_after update_site].
  destruct j; reflexivity.
Qed.

Lemma store_at_step i w :
  (i < NUM_SITES)%nat ->
  alter (write_slot w (env i)) i (store_at (CbWrite i w) env pre)
  = store_at (cb_next i w) env pre.
Proof.
  intros Hi. apply list_eq. intros j.
  assert (forall w', w <> WLink -> cb_next i w = CbWrite i w' ->
            wslot_index w' = S (wslot_index w) ->
            alter (write_slot w (env i)) i (store_at (CbWrite i w) env pre) !! j
            = store_at (CbWrite i w') env pre !! j) as Hmid.
  { intros w' _ _ Hw'. rewrite !store_at_lookup.
    destruct (decide (i = j)) as [<-|Hne].
    - rewrite list_lookup_alter_eq, store_at_lookup.
      destruct (pre !! i) as [s|]; [|done]. cbn -[Nat.ltb Nat.eqb site_after update_site].
      rewrite Nat.ltb_irrefl, Nat.eqb_refl, Hw'. f_equal. apply write_slot_site_after.
    - rewrite list_lookup_alter_ne, store_at_lookup by done.
      destruct (pre !! j) as [s|]; [|done]. cbn -[Nat.ltb Nat.eqb site_after update_site].
      destruct (Nat.eqb_spec j i); [congruence | done]. }
  destruct w; try (by apply Hmid).
  cbn [cb_next]. destruct (Nat.ltb_spec (S i) NUM_SITES) as [Hlt|Hge].
  - rewrite store_at_lookup.
    destruct (decide (i = j)) as [<-|Hne].
    + rewrite list_lookup_alter_eq, store_at_lookup.
      destruct (pre !! i) as [s|]; [|done]. cbn -[Nat.ltb Nat.eqb site_after update_site].
      rewrite Nat.ltb_irrefl, Nat.eqb_refl.
      destruct (Nat.ltb_spec i (S i)); [|lia]. reflexivity.
    + rewrite list_lookup_alter_ne, store_at_lookup by done.
      destruct (pre !! j) as [s|]; [|done]. cbn -[Nat.ltb Nat.eqb site_after update_site].
      destruct (Nat.ltb_spec j i), (Nat.ltb_spec j (S i)), (Nat.eqb_spec j i),
               (Nat.eqb_spec j (S i)); try lia; reflexivity.
  - assert (S i = NUM_SITES) as HSi by lia.
    change (store_at CbRearm env pre) with post.
    destruct (decide (i = j)) as [<-|Hne].
    + rewrite list_lookup_alter_eq, store_at_lookup, update_sites_lookup by done.
      destruct (pre !! i) as [s|]; [|done]. cbn -[Nat.ltb Nat.eqb site_after update_site].
      rewrite Nat.ltb_irrefl, Nat.eqb_refl. reflexivity.
    + rewrite list_lookup_alter_ne, store_at_lookup by done.
      destruct (decide (j < NUM_SITES)%nat) as [Hj|Hj].
      * rewrite update_sites_lookup by done.
        destruct (pre !! j) as [s|]; [|done]. cbn -[Nat.ltb Nat.eqb site_after update_site].
        destruct (Nat.ltb_spec j i); [done|lia].
      * rewrite update_sites_lookup_ge by lia.
        rewrite (lookup_ge_None_2 pre j) by lia. done.
Qed.

Lemma store_at_between pc j :
  (j < NUM_SITES)%nat ->
  between (store_at pc env pre !!! j) (pre !!! j) (post !!! j).
Proof.
  intros Hj.
  destruct (lookup_lt_is_Some_2 pre j ltac:(lia)) as [s Hs].
  assert (pre !!! j = s) as -> by (by apply list_lookup_total_correct).
  assert (post !!! j = update_site (env j) s) as ->.
  { apply list_lookup_total_correct.       rewrite update_sites_lookup, Hs by done. done. }
  destruct pc as [i w|].
  - erewrite list_lookup_total_correct; [|by rewrite store_at_lookup, Hs].
    cbn -[Nat.ltb Nat.eqb site_after update_site]. destruct (j <? i)%nat; [apply between_refl_r|].
    destruct (j =? i)%nat; [apply site_after_between | apply between_refl_l].
  - erewrite list_lookup_total_correct;
      [|by (change (store_at CbRearm env pre) with post;
            rewrite update_sites_lookup, Hs)].
    apply between_refl_r.
Qed.

Lemma store_inv_between s j :
  store_inv envs n0 pre s -> (j < NUM_SITES)%nat ->
  between (sites_data (ks s) !!! j) (pre !!! j) (post !!! j).
Proof.
  intros [(pc & _ & _ & _ & ->)|[_ ->]] Hj.
  - by apply store_at_between.
  - apply between_refl_r.
Qed.

Lemma cb_next_ok i w : (i < NUM_SITES)%nat -> cb_pc_ok (cb_next i w).
Proof.
  intros Hi. destruct w; cbn; try done.
  destruct (Nat.ltb_spec (S i) NUM_SITES); cbn; done.
Qed.

Lemma step_store_inv e s s' :
  race_event e -> step envs e s = Some s' -> store_inv envs n0 pre s -> store_inv envs n0 pre s'.
Proof.
  intros [-> | ->]; cbn; intros H Hinv.
  - destruct Hinv as [(pc & Hcb & Hok & Hn & Hsd)|[Hcb _]]; rewrite Hcb in H; [|done].
    destruct pc as [i w|]; injection H as <-; cbn.
    + left. exists (cb_next i w). split; [done|].
      split; [by apply cb_next_ok|]. split; [done|].
      rewrite Hn, Hsd. by apply store_at_step.
    + right. split; [done|]. cbn. by rewrite Hsd.
  - destruct (rd s) as [[i r]|]; simplify_eq. exact Hinv.
Qed.

Lemma step_reader_inv e s s' :
  race_event e -> step envs e s = Some s' ->
  store_inv envs n0 pre s -> reader_inv pre post s -> reader_inv pre post s'.
Proof.
  intros [-> | ->]; unfold step; intros H Hst [Hout Hrd].
  - destruct (cb s) as [[i w|]|]; try discriminate H; injection H as <-;
      exact (conj Hout Hrd).
  - destruct (rd s) as [[i r]|] eqn:Hrds; [|done]. injection H as <-.
    destruct Hrd as (Hi & Hlen & Hpart).
    pose proof (store_inv_between s i Hst Hi) as Hx.
    pose proof (read_slot_partial r _ (cur s) _ _ Hx Hpart) as Hnew.
    unfold reader_inv. cbn [rd rout cur ks].
    destruct r; cbn [rd_next];
      try (split; [exact Hout|]; split; [done|]; split; [done|];
           intros r' Hr'; apply Hnew; cbn in Hr' |- *; lia).
    split.
    + intros j e Hj. apply lookup_app_Some in Hj as [Hj|[Hge Hj]]; [by eauto|].
      apply list_lookup_singleton_Some in Hj as [Hj <-].
      assert (j = i) as -> by lia.
      intros r'. apply Hnew. destruct r'; cbn; lia.
    + destruct (Nat.ltb_spec (S i) NUM_SITES); [|done].
      split; [done|]. split; [rewrite length_app; cbn; lia|].
      intros r' Hr'. cbn in Hr'. lia.
Qed.

Lemma run_race_inv evs s s' :
  Forall race_event evs -> run envs evs s = Some s' ->
  store_inv envs n0 pre s -> reader_inv pre post s -> store_inv envs n0 pre s' /\ reader_inv pre post s'.
Proof.
  intros Hevs. revert s. induction Hevs as [|e evs He _ IH]; intros s H Hst Hrd; cbn in H.
  - by simplify_eq.
  - destruct (step envs e s) as [s1|] eqn:Hstep; [|done].
    eauto using step_store_inv, step_reader_inv.
Qed.

End Race.

(** C1, as far as the code goes: when a reader runs against one run of the
    callback, under any interleaving of the loads of the one with the stores
    of the other, every field of every record the reader prints is, taken by
    itself, the value of that field before the run or the value after it. *)
Theorem reader_fields_pre_or_post envs evs s0 s1 i e :
  race_start s0 ->
  Forall race_event evs ->
  run envs evs s0 = Some s1 ->
  rout s1 !! i = Some e ->
  fieldwise e
    (show_site (sites_data (ks s0) !!! i))
    (show_site (update_sites (envs (ticks s0)) (sites_data (ks s0)) !!! i)).
Proof.
  intros (Hcb & Hrd & Hout & Hlen) Hevs Hrun Hi.
  destruct (run_race_inv envs (ticks s0) (sites_data (ks s0)) Hlen evs s0 s1 Hevs Hrun)
    as [_ [H _]].
  - left. exists cb_first. split; [done|].
    split; [change cb_first with (CbWrite 0 WTs); cbn; unfold NUM_SITES; lia|].
    split; [done|]. symmetry. apply store_at_first.
  - split.
    + rewrite Hout. intros j e' Hj. by rewrite lookup_nil in Hj.
    + rewrite Hrd, Hout. split; [unfold NUM_SITES; lia|]. split; [done|].
      intros r' Hr'. cbn in Hr'. lia.
  - by apply H.
Qed.

Lemma reader_fields_pre_or_post_witness :
  fieldwise torn_entry
    (show_site (sites_data (ks race_demo_start) !!! 0%nat))
    (show_site (update_sites (envs_demo (ticks race_demo_start))
                  (sites_data (ks race_demo_start)) !!! 0%nat)).
Proof.
  apply (reader_fields_pre_or_post envs_demo sched_race race_demo_start
           (state_of (run envs_demo sched_race race_demo_start)) 0 torn_entry).
  - vm_compute. repeat split; reflexivity.
  - unfold sched_race, race_event. cbn.
    repeat (constructor; [first [left; reflexivity | right; reflexivity]|]).
    constructor.
  - vm_compute. reflexivity.
  - vm_compute. reflexivity.
Defined.

(** C1 fails as worded: nothing orders the loads of [proc_show] against the
    stores of the callback.  Under [sched_torn] the reader prints for record
    0 the timestamp from before the run of the callback next to the
    throughput from after it, a record the store holds at no instant of the
    execution. *)
Lemma torn_record_counterexample :
  run envs_demo sched_torn (boot init_env_ok)
  = Some (state_of (run envs_demo sched_torn (boot init_env_ok)))
  /\ rout (state_of (run envs_demo sched_torn (boot init_env_ok))) = [torn_entry]
  /\ e_timestamp torn_entry
     = timestamp (sites_data (ks (boot init_env_ok)) !!! 0%nat)
  /\ e_throughput torn_entry
     = throughput_gbps
         (update_sites (envs_demo 0) (sites_data (ks (boot init_env_ok))) !!! 0%nat)
  /\ torn_entry <> show_site (sites_data (ks (boot init_env_ok)) !!! 0%nat)
  /\ torn_entry
     <> show_site (update_sites (envs_demo 0) (sites_data (ks (boot init_env_ok))) !!! 0%nat)
  /\ Forall (fun s => show_site (sites_data (ks s) !!! 0%nat) <> torn_entry)
            (run_trace envs_demo sched_torn (boot init_env_ok)).
Proof.
  split; [vm_compute; reflexivity|].
  split; [vm_compute; reflexivity|].
  split; [vm_compute; reflexivity|].
  split; [vm_compute; reflexivity|].
  split; [vm_compute; discriminate|].
  split; [vm_compute; discriminate|].
  vm_compute. repeat constructor; discriminate.
Qed.

(** * Further properties of the module *)

(** ** Loading and unloading *)

(** X1: when [kmalloc], [proc_mkdir] and [proc_create] all succeed,
    [skma_fon_init] returns 0 and leaves the buffer allocated at the address
    [kmalloc] gave, both proc names registered, the timer queued, no user
    mapping, and four records: record [i] carries name [i] of [site_names],
    the clock reading of its turn, throughput 1000, both counters 0, link
    status 1, utilization 50.0 and zeroed padding. *)
Theorem init_success_state env :
  kmalloc_ok env = true -> proc_mkdir_ok env = true -> proc_create_ok env = true ->
  (skma_fon_init env k_blank).1 = 0
  /\ heap_live (skma_fon_init env k_blank).2 = true
  /\ shared_buffer (skma_fon_init env k_blank).2 = Some (kmalloc_phys env)
  /\ procfs (skma_fon_init env k_blank).2 = [PROC_ENTRY; PROC_DIR_NAME]
  /\ timer_pending (skma_fon_init env k_blank).2 = true
  /\ vmas (skma_fon_init env k_blank).2 = []
  /\ sites_data (skma_fon_init env k_blank).2
     = [seeded_stats "MicrosoftDC" (seed_now env 0%nat);
        seeded_stats "Dallas" (seed_now env 1%nat);
        seeded_stats "Dobbins" (seed_now env 2%nat);
        seeded_stats "Stone" (seed_now env 3%nat)].
Proof.
  destruct env as [ok phys t0 dir ent]. cbn [kmalloc_ok proc_mkdir_ok proc_create_ok].
  intros -> -> ->. repeat split; reflexivity.
Qed.

Lemma init_success_state_witness :
  (skma_fon_init init_env_ok k_blank).1 = 0
  /\ sites_data k_loaded
     = [seeded_stats "MicrosoftDC" 100; seeded_stats "Dallas" 100;
        seeded_stats "Dobbins" 100; seeded_stats "Stone" 100].
Proof.
  destruct (init_success_state init_env_ok) as (Hr & _ & _ & _ & _ & _ & Hs);
    [reflexivity | reflexivity | reflexivity |].
  exact (conj Hr Hs).
Defined.

Lemma filter_out_not_elem (name : string) (l : list string) :
  name ∉ filter (fun n => n <> name) l.
Proof. intros H. apply list_elem_of_filter in H as [H _]. by apply H. Qed.

Lemma filter_out_subseteq (name : string) (l : list string) x :
  x ∈ filter (fun n => n <> name) l -> x ∈ l.
Proof. intros H. by apply list_elem_of_filter in H as [_ H]. Qed.

(** X2: on a loaded module (both proc pointers and the buffer pointer set)
    [skma_fon_exit] dequeues the timer, unregisters both proc names and frees
    the buffer; it writes no record, and it leaves the user mappings of the
    buffer where they are. *)
Theorem exit_releases k :
  proc_entry k = true -> proc_dir k = true -> is_Some (shared_buffer k) ->
  heap_live (skma_fon_exit k).2 = false
  /\ timer_pending (skma_fon_exit k).2 = false
  /\ (PROC_ENTRY ∉ procfs (skma_fon_exit k).2)
  /\ (PROC_DIR_NAME ∉ procfs (skma_fon_exit k).2)
  /\ sites_data (skma_fon_exit k).2 = sites_data k
  /\ vmas (skma_fon_exit k).2 = vmas k.
Proof.
  destruct k as [h b sd pd pe fs tp vm lg]. cbn [proc_entry proc_dir shared_buffer].
  intros -> -> [phys ->].
  repeat split; try reflexivity.
  - intros H. cbn in H. apply filter_out_subseteq in H.
    by apply filter_out_not_elem in H.
  - cbn. apply filter_out_not_elem.
Qed.

Lemma exit_releases_witness :
  heap_live (skma_fon_exit k_mapped).2 = false
  /\ timer_pending (skma_fon_exit k_mapped).2 = false
  /\ (PROC_ENTRY ∉ procfs (skma_fon_exit k_mapped).2)
  /\ (PROC_DIR_NAME ∉ procfs (skma_fon_exit k_mapped).2)
  /\ sites_data (skma_fon_exit k_mapped).2 = sites_data k_mapped
  /\ vmas (skma_fon_exit k_mapped).2 = vmas k_mapped.
Proof.
  apply (exit_releases k_mapped).
  - reflexivity.
  - reflexivity.
  - vm_compute. eauto.
Defined.

(** ** The records the module can hold *)

Lemma strncpy_length n src :
  String.length (strncpy n src) = Nat.min n (String.length src).
Proof.
  revert src. induction n as [|n IH]; intros [|c rest]; cbn; try reflexivity.
  by rewrite IH.
Qed.

(** [strncpy] with bound [n] never yields more than [n] characters (so
    the name always leaves room for the terminator the next line stores), it
    copies a source of at most [n] characters unchanged, and copying its
    result again changes nothing. *)
Theorem strncpy_bounds n src :
  (String.length (strncpy n src) <= n)%nat
  /\ ((String.length src <= n)%nat -> strncpy n src = src)
  /\ strncpy n (strncpy n src) = strncpy n src.
Proof.
  split; [rewrite strncpy_length; lia|]. split.
  - revert src. induction n as [|n IH]; intros [|c rest]; cbn; intros H;
      try reflexivity; try lia.
    f_equal. apply IH. lia.
  - revert src. induction n as [|n IH]; intros [|c rest]; cbn; try reflexivity.
    by rewrite IH.
Qed.

Lemma strncpy_bounds_witness : strncpy 31 "MicrosoftDC" = "MicrosoftDC".
Proof.
  refine (proj1 (proj2 (strncpy_bounds 31 "MicrosoftDC")) _).
  cbn. lia.
Defined.

Lemma seed_site_shape i t s :
  wf_stats s -> reserved s = replicate 8 0 ->
  wf_stats (seed_site i t s)
  /\ link_status (seed_site i t s) = 1
  /\ reserved (seed_site i t s) = replicate 8 0
  /\ throughput_gbps (seed_site i t s) = 1000
  /\ (String.length (site_name (seed_site i t s)) <= 31)%nat.
Proof.
  intros Hwf Hres.
  assert (site_name (seed_site i t s) = strncpy 31 (site_names !!! i)) as Hname
    by reflexivity.
  split; [|split; [reflexivity|]; split; [exact Hres|]; split; [reflexivity|]].
  - unfold wf_stats, is_u32. cbn [seed_site timestamp throughput_gbps error_count
      ber_errors link_status set_utilization set_link_status set_ber_errors
      set_error_count set_throughput_gbps set_timestamp set_site_name].
    split; [apply u64_range | lia].
  - rewrite Hname, strncpy_length. lia.
Qed.

Lemma run_ticks_names envs t0 n :
  site_name <$> run_ticks envs n (init_store t0) = site_names.
Proof.
  induction n as [|n IH] using N.peano_ind.
  - apply init_store_names.
  - by rewrite run_ticks_succ, update_sites_names.
Qed.

Lemma reachable_link_up envs t0 n i s :
  run_ticks envs n (init_store t0) !! i = Some s -> link_status s = 1.
Proof.
  intros Hs. pose proof (run_ticks_init_lookup_lt _ _ _ _ _ Hs) as Hi.
  destruct n as [|n] using N.peano_ind.
  - rewrite run_ticks_0, init_store_lookup in Hs by done. by injection Hs as <-.
  - rewrite run_ticks_succ in Hs.
    by apply update_sites_lookup_Some in Hs as (s0 & _ & ->).
Qed.

(** X3: every record of every store reached from initialisation by any
    number of runs of the callback has integer fields within their C types,
    link status 1, a throughput in [800, 2000), a name of at most 31
    characters and untouched (zero) padding. *)
Theorem reachable_record_shape envs t0 n i s :
  run_ticks envs n (init_store t0) !! i = Some s ->
  wf_stats s
  /\ link_status s = 1
  /\ 800 <= throughput_gbps s < 2000
  /\ (String.length (site_name s) <= 31)%nat
  /\ reserved s = replicate 8 0.
Proof.
  revert s. induction n as [|n IH] using N.peano_ind; intros s Hs.
  - pose proof (run_ticks_init_lookup_lt envs t0 0 i s Hs) as Hi.
    rewrite run_ticks_0, init_store_lookup in Hs by done. injection Hs as <-.
    destruct (seed_site_shape i (t0 i) zero_stats) as (Hwf & Hl & Hr & Ht & Hn).
    { unfold wf_stats, is_u64, is_u32. cbn. lia. }
    { reflexivity. }
    rewrite Ht. repeat split; try done; try apply Hwf; lia.
  - pose proof (run_ticks_init_lookup_lt _ _ _ _ _ Hs) as Hi.
    rewrite run_ticks_succ in Hs.
    apply update_sites_lookup_Some in Hs as (s0 & Hs0 & ->); [|done].
    destruct (IH _ Hs0) as (_ & _ & _ & Hn & Hr).
    split; [apply update_site_wf|]. split; [reflexivity|].
    split; [apply update_site_util|]. split; [exact Hn | exact Hr].
Qed.

Lemma reachable_record_shape_witness :
  let s := run_ticks envs_demo 3 (init_store clock_demo) !!! 2%nat in
  wf_stats s
  /\ link_status s = 1
  /\ 800 <= throughput_gbps s < 2000
  /\ (String.length (site_name s) <= 31)%nat
  /\ reserved s = replicate 8 0.
Proof.
  intros s. apply (reachable_record_shape envs_demo clock_demo 3 2).
  vm_compute. reflexivity.
Defined.

(** ** The report without a concurrent writer *)

Lemma show_site_eq s :
  show_site s =
  mk_report_entry (site_name s) (timestamp s) (throughput_gbps s) (error_count s)
                  (ber_errors s) (utilization s)
                  (if link_status s =? 0 then "DOWN" else "UP").
Proof. reflexivity. Qed.

Lemma proc_show_lookup (st : store) i :
  (i < NUM_SITES)%nat -> proc_show st !! i = Some (show_site (st !!! i)).
Proof.
  intros Hi. unfold proc_show. rewrite list_lookup_fmap, lookup_seq_lt by done.
  reflexivity.
Qed.

(** X4: on every store reached from initialisation by any number of runs of
    the callback, [proc_show] prints exactly [NUM_SITES] records, in index
    order, each with the fields of the stored record and link "UP"; the names
    printed are those of [site_names] in their order. *)
Theorem proc_show_reachable envs t0 n :
  length (proc_show (run_ticks envs n (init_store t0))) = NUM_SITES
  /\ proc_show (run_ticks envs n (init_store t0))
     = entry_of <$> run_ticks envs n (init_store t0)
  /\ e_site <$> proc_show (run_ticks envs n (init_store t0)) = site_names.
Proof.
  assert (proc_show (run_ticks envs n (init_store t0))
          = entry_of <$> run_ticks envs n (init_store t0)) as Heq.
  { apply list_eq. intros i. rewrite list_lookup_fmap.
    destruct (decide (i < NUM_SITES)%nat) as [Hi|Hi].
    - rewrite proc_show_lookup by done.
      destruct (lookup_lt_is_Some_2 (run_ticks envs n (init_store t0)) i) as [s Hs].
      { rewrite run_ticks_length, init_store_length. done. }
      rewrite (list_lookup_total_correct _ _ _ Hs), Hs.
      change (entry_of <$> Some s) with (Some (entry_of s)). f_equal.
      rewrite show_site_eq. unfold entry_of.
      rewrite (reachable_link_up _ _ _ _ _ Hs). reflexivity.
    - rewrite (lookup_ge_None_2 (run_ticks envs n (init_store t0)) i)
        by (rewrite run_ticks_length, init_store_length; lia).
      apply lookup_ge_None_2. unfold proc_show.
      rewrite length_fmap, length_seq. lia. }
  split; [unfold proc_show; by rewrite length_fmap, length_seq|].
  split; [exact Heq|].
  rewrite Heq, <- list_fmap_compose. apply run_ticks_names.
Qed.

(** ** [proc_mmap]: what a call can and cannot change *)

(** X5: whatever the request, [proc_mmap] writes no record and leaves the
    buffer, its pointer, the proc names and the timer alone.  It installs a
    mapping only when it returns 0; that mapping has the requested start,
    length and protection, a length of at most [BUFFER_SIZE], and always
    begins at the first page of the buffer. *)
Theorem proc_mmap_frame PAGE_SHIFT vma ok k :
  sites_data (proc_mmap PAGE_SHIFT vma ok k).2 = sites_data k
  /\ heap_live (proc_mmap PAGE_SHIFT vma ok k).2 = heap_live k
  /\ shared_buffer (proc_mmap PAGE_SHIFT vma ok k).2 = shared_buffer k
  /\ procfs (proc_mmap PAGE_SHIFT vma ok k).2 = procfs k
  /\ timer_pending (proc_mmap PAGE_SHIFT vma ok k).2 = timer_pending k
  /\ ((proc_mmap PAGE_SHIFT vma ok k).1 <> 0 ->
      vmas (proc_mmap PAGE_SHIFT vma ok k).2 = vmas k)
  /\ ((proc_mmap PAGE_SHIFT vma ok k).1 = 0 ->
      ulong (vm_end vma - vm_start vma) <= BUFFER_SIZE PAGE_SHIFT
      /\ vmas (proc_mmap PAGE_SHIFT vma ok k).2
         = mk_mapping (vm_start vma)
             (Z.shiftr (default 0 (shared_buffer k)) PAGE_SHIFT)
             (ulong (vm_end vma - vm_start vma)) (vm_page_prot vma) :: vmas k).
Proof.
  rewrite proc_mmap_cases. cbv zeta.
  destruct (Z.ltb_spec (BUFFER_SIZE PAGE_SHIFT) (ulong (vm_end vma - vm_start vma)))
    as [Hlt|Hge].
  - split_and!; try reflexivity; cbn; intros Hr; try reflexivity.
    exfalso. unfold EINVAL in Hr. lia.
  - destruct ok; split_and!; try reflexivity; cbn; intros Hr; try reflexivity;
      try (split; [lia | reflexivity]); exfalso; unfold EAGAIN in Hr; lia.
Qed.

Lemma proc_mmap_frame_witness :
  vmas (proc_mmap 12 vma_one_page true k_loaded).2
  = [mk_mapping 139637976727552 256 4096 37].
Proof.
  destruct (proc_mmap_frame 12 vma_one_page true k_loaded) as (_ & _ & _ & _ & _ & _ & H).
  destruct (H eq_refl) as [_ Hv]. exact Hv.
Defined.

(** ** Timestamps and counters over a run *)

(** X6: while the wall clock does not run backwards (and stays within a
    u64), the timestamp a run of the callback stores is the clock reading of
    that run and is never smaller than the timestamp it replaces. *)
Theorem timestamps_follow_clock envs t0 n i s s' :
  clock_steady envs t0 i ->
  run_ticks envs n (init_store t0) !! i = Some s ->
  run_ticks envs (N.succ n) (init_store t0) !! i = Some s' ->
  timestamp s' = now (envs n i) /\ timestamp s <= timestamp s'.
Proof.
  intros (H0 & H1 & Hmono & Hlt) Hs Hs'.
  pose proof (run_ticks_init_lookup_lt _ _ _ _ _ Hs) as Hi.
  assert (forall k, 0 <= now (envs k i)) as Hpos.
  { intros k. induction k as [|k IH] using N.peano_ind; [lia|].
    specialize (Hmono k). lia. }
  assert (forall k, u64 (now (envs k i)) = now (envs k i)) as Hu.
  { intros k. apply u64_small. split; [apply Hpos | apply Hlt]. }
  rewrite run_ticks_succ in Hs'.
  apply update_sites_lookup_Some in Hs' as (s0 & Hs0 & ->); [|done].
  assert (s0 = s) as -> by congruence.
  rewrite update_site_eq. cbn [timestamp]. rewrite Hu. split; [done|].
  destruct n as [|n _] using N.peano_ind.
  - rewrite run_ticks_0, init_store_lookup in Hs by done. injection Hs as <-.
    cbn [seed_site timestamp set_utilization set_link_status set_ber_errors
         set_error_count set_throughput_gbps set_timestamp set_site_name].
    pose proof (Hlt 0%N).
    rewrite u64_small by (unfold is_u64; lia). lia.
  - rewrite run_ticks_succ in Hs.
    apply update_sites_lookup_Some in Hs as (s1 & _ & ->); [|done].
    rewrite update_site_eq. cbn [timestamp]. rewrite Hu. apply Hmono.
Qed.

Lemma timestamps_follow_clock_witness :
  let s := run_ticks envs_steady 2 (init_store clock_demo) !!! 1%nat in
  let s' := run_ticks envs_steady 3 (init_store clock_demo) !!! 1%nat in
  timestamp s' = now (envs_steady 2 1%nat) /\ timestamp s <= timestamp s'.
Proof.
  intros s s'.
  apply (timestamps_follow_clock envs_steady clock_demo 2 1 s s').
  - unfold clock_steady, envs_steady, clock_demo. cbn [now].
    split; [lia|]. split; [lia|]. split; intros k; lia.
  - vm_compute. reflexivity.
  - vm_compute. reflexivity.
Defined.

Lemma err_total_succ envs i n :
  err_total envs i (N.succ n) = err_total envs i n + u32 (r_err (envs n i)) mod 3.
Proof. unfold err_total. by rewrite N.peano_rect_succ. Qed.

Lemma ber_total_succ envs i n :
  ber_total envs i (N.succ n) = ber_total envs i n + u32 (r_ber (envs n i)) mod 2.
Proof. unfold ber_total. by rewrite N.peano_rect_succ. Qed.

Lemma totals_bounded envs i n :
  0 <= err_total envs i n <= 2 * Z.of_N n /\ 0 <= ber_total envs i n <= Z.of_N n.
Proof.
  induction n as [|n IH] using N.peano_ind; [cbn; lia|].
  rewrite err_total_succ, ber_total_succ.
  pose proof (Z.mod_pos_bound (u32 (r_err (envs n i))) 3 ltac:(lia)).
  pose proof (Z.mod_pos_bound (u32 (r_ber (envs n i))) 2 ltac:(lia)).
  lia.
Qed.

(** X7: after [n] runs of the callback from initialisation, the error count
    of a record is the sum of the [n] increments drawn for it (each 0, 1 or
    2), taken modulo 2^32, and the BER count the sum of its increments (each
    0 or 1), taken modulo 2^32; the sums are at most [2 n] and [n]. *)
Theorem counters_are_running_totals envs t0 n i s :
  run_ticks envs n (init_store t0) !! i = Some s ->
  error_count s = err_total envs i n mod 2 ^ 32
  /\ ber_errors s = ber_total envs i n mod 2 ^ 32
  /\ 0 <= err_total envs i n <= 2 * Z.of_N n
  /\ 0 <= ber_total envs i n <= Z.of_N n.
Proof.
  intros Hs. split; [|split; [|apply totals_bounded]].
  - revert s Hs. induction n as [|n IH] using N.peano_ind; intros s Hs.
    + pose proof (run_ticks_init_lookup_lt envs t0 0 i s Hs) as Hi.
      rewrite run_ticks_0, init_store_lookup in Hs by done. by injection Hs as <-.
    + pose proof (run_ticks_init_lookup_lt _ _ _ _ _ Hs) as Hi.
      rewrite run_ticks_succ in Hs.
      apply update_sites_lookup_Some in Hs as (s0 & Hs0 & ->); [|done].
      rewrite update_site_eq, err_total_succ. cbn [error_count].
      rewrite (IH _ Hs0). unfold u32 at 1. by rewrite Zplus_mod_idemp_l.
  - revert s Hs. induction n as [|n IH] using N.peano_ind; intros s Hs.
    + pose proof (run_ticks_init_lookup_lt envs t0 0 i s Hs) as Hi.
      rewrite run_ticks_0, init_store_lookup in Hs by done. by injection Hs as <-.
    + pose proof (run_ticks_init_lookup_lt _ _ _ _ _ Hs) as Hi.
      rewrite run_ticks_succ in Hs.
      apply update_sites_lookup_Some in Hs as (s0 & Hs0 & ->); [|done].
      rewrite update_site_eq, ber_total_succ. cbn [ber_errors].
      rewrite (IH _ Hs0). unfold u32 at 1. by rewrite Zplus_mod_idemp_l.
Qed.

Lemma counters_are_running_totals_witness :
  let s := run_ticks envs_demo 3 (init_store clock_demo) !!! 0%nat in
  error_count s = 6 /\ ber_errors s = 2.
Proof.
  intros s.
  destruct (counters_are_running_totals envs_demo clock_demo 3 0 s) as (He & Hb & _).
  - vm_compute. reflexivity.
  - split; [exact He | exact Hb].
Defined.

(** ** The timer while the module is loaded *)

Lemma step_timer_alive envs e s s' :
  step envs e s = Some s' -> timer_alive s -> timer_alive s'.
Proof.
  unfold timer_alive. destruct e; unfold step; intros H Ha.
  - destruct (timer_pending (ks s) && bool_decide (cb s = None)) eqn:Hg; [|done].
    injection H as <-. cbn. intros _. right. eauto.
  - destruct (cb s) as [[i w|]|] eqn:Hcb; [| |done]; injection H as <-; cbn; intros Hx.
    + right. eauto.
    + left. done.
  - destruct (bool_decide (rd s = None) && _); [|done]. injection H as <-. exact Ha.
  - destruct (rd s) as [[i r]|]; [|done]. injection H as <-. exact Ha.
  - destruct (_ && _); [|done]. injection H as <-. cbn. lia.
Qed.

Lemma run_timer_alive envs evs s s' :
  run envs evs s = Some s' -> timer_alive s -> timer_alive s'.
Proof.
  revert s. induction evs as [|e evs IH]; intros s H Ha; cbn in H.
  - by simplify_eq.
  - destruct (step envs e s) as [s1|] eqn:Hstep; [|done].
    eauto using step_timer_alive.
Qed.

(** X8: in every execution of a successfully loaded module, as long as
    [skma_fon_exit] has not started, the timer is queued or its callback is
    running, and the updater can always take its next step: the periodic
    update does not stop by itself. *)
Theorem updater_never_stalls env envs evs s :
  (skma_fon_init env k_blank).1 = 0 ->
  run envs evs (boot env) = Some s ->
  exit_pc s = 0%nat ->
  (timer_pending (ks s) = true \/ is_Some (cb s))
  /\ (is_Some (step envs EFire s) \/ is_Some (step envs ETimer s)).
Proof.
  intros Hinit Hrun Hx.
  assert (timer_alive (boot env)) as Hb.
  { intros _. left. by apply init_success. }
  pose proof (run_timer_alive _ _ _ _ Hrun Hb Hx) as Ha.
  split; [exact Ha|].
  destruct (cb s) as [pc|] eqn:Hc.
  - right. unfold step. rewrite Hc. destruct pc; eauto.
  - left. destruct Ha as [Hp|[pc Hpc]]; [|done].
    unfold step. rewrite Hp, Hc. cbn. eauto.
Qed.

Lemma updater_never_stalls_witness :
  is_Some (step envs_demo EFire (state_of (run envs_demo sched_busy (boot init_env_ok))))
  \/ is_Some (step envs_demo ETimer (state_of (run envs_demo sched_busy (boot init_env_ok)))).
Proof.
  refine (proj2 (updater_never_stalls init_env_ok envs_demo sched_busy
                   (state_of (run envs_demo sched_busy (boot init_env_ok))) _ _ _)).
  - reflexivity.
  - vm_compute. reflexivity.
  - vm_compute. reflexivity.
Defined.

(** ** The buffer while the callback can run *)

Lemma exit_stmt_heap_live pc k :
  (pc < 3)%nat -> heap_live (exit_stmt pc k).2 = heap_live k.
Proof.
  intros Hpc. destruct pc as [|[|[|pc]]]; try lia; try reflexivity.
  - k_unfold. by destruct (proc_entry k).
  - k_unfold. by destruct (proc_dir k).
Qed.

Lemma exit_stmt_shared_buffer pc k :
  shared_buffer (exit_stmt pc k).2 = shared_buffer k.
Proof.
  destruct pc as [|[|[|[|pc]]]]; try reflexivity.
  - k_unfold. by destruct (proc_entry k).
  - k_unfold. by destruct (proc_dir k).
  - k_unfold. destruct (shared_buffer k) eqn:Hb; cbn; done.
Qed.

Lemma exit_stmt_3_heap_live k :
  is_Some (shared_buffer k) -> heap_live (exit_stmt 3 k).2 = false.
Proof. intros [b Hb]. k_unfold. by rewrite Hb. Qed.

Lemma step_buffer_held envs e s s' :
  step envs e s = Some s' -> buffer_held s -> buffer_held s'.
Proof.
  unfold buffer_held, EXIT_STMTS. destruct e; unfold step; intros H (Hb & Hle & Hlive & Hfree).
  - destruct (timer_pending (ks s) && bool_decide (cb s = None)); [|done].
    injection H as <-. done.
  - destruct (cb s) as [[i w|]|]; [| |done]; injection H as <-; done.
  - destruct (bool_decide (rd s = None) && _); [|done]. injection H as <-. done.
  - destruct (rd s) as [[i r]|]; [|done]. injection H as <-. done.
  - destruct (exit_pc s <? EXIT_STMTS)%nat eqn:Hlt; [|done].
    apply Nat.ltb_lt in Hlt. unfold EXIT_STMTS in Hlt.
    destruct (_ || _); [|done]. injection H as <-.
    cbn [ks exit_pc]. rewrite exit_stmt_shared_buffer.
    split; [done|]. split; [lia|]. split.
    + intros Hx. rewrite exit_stmt_heap_live by lia. apply Hlive. lia.
    + intros Hx. assert (exit_pc s = 3%nat) as -> by lia.
      by apply exit_stmt_3_heap_live.
Qed.

Lemma run_buffer_held envs evs s s' :
  run envs evs s = Some s' -> buffer_held s -> buffer_held s'.
Proof.
  revert s. induction evs as [|e evs IH]; intros s H Ha; cbn in H.
  - by simplify_eq.
  - destruct (step envs e s) as [s1|] eqn:Hstep; [|done].
    eauto using step_buffer_held.
Qed.

(** X9: in every execution of a successfully loaded module the buffer stays
    allocated until the [kfree] of [skma_fon_exit], which is the last thing
    to touch it: whenever the callback is running or the timer is still
    queued the buffer is allocated, so the callback never stores into freed
    memory; and once [skma_fon_exit] is through the buffer is freed. *)
Theorem callback_never_after_free env envs evs s :
  (skma_fon_init env k_blank).1 = 0 ->
  run envs evs (boot env) = Some s ->
  ((is_Some (cb s) \/ timer_pending (ks s) = true) -> heap_live (ks s) = true)
  /\ ((exit_pc s < EXIT_STMTS)%nat -> heap_live (ks s) = true)
  /\ (exit_pc s = EXIT_STMTS -> heap_live (ks s) = false).
Proof.
  intros Hinit Hrun.
  assert (buffer_held (boot env)) as Hb.
  { unfold buffer_held, boot, EXIT_STMTS. cbn [ks exit_pc].
    destruct env as [[] phys t0 [] []]; try discriminate Hinit.
    split; [by eexists|]. split; [lia|]. split; [done|]. lia. }
  destruct (run_buffer_held _ _ _ _ Hrun Hb) as (_ & _ & Hlive & Hfree).
  split; [|done].
  intros Hbusy. apply Hlive.
  pose proof (run_quiescent _ _ _ _ Hrun (boot_quiescent env)) as Hq.
  unfold quiescent, timer_stopped in Hq. unfold EXIT_STMTS.
  destruct (exit_pc s) as [|pc]; [lia|].
  destruct (Hq ltac:(lia)) as [Hc Hp].
  destruct Hbusy as [[pc' Hcb]|Hpend]; congruence.
Qed.

Lemma callback_never_after_free_witness :
  heap_live (ks (state_of (run envs_demo sched_busy (boot init_env_ok)))) = true.
Proof.
  refine (proj1 (proj2 (callback_never_after_free init_env_ok envs_demo sched_busy
                   (state_of (run envs_demo sched_busy (boot init_env_ok))) _ _)) _).
  - reflexivity.
  - vm_compute. reflexivity.
  - vm_compute. lia.
Defined.

(** ** What no interleaving can break in a report *)

Lemma write_slot_sane i w d x : record_sane i x -> record_sane i (write_slot w d x).
Proof.
  intros (Hn & Hl & Ht). destruct w; split; try exact Hn; split; try exact Hl;
    try exact Ht; try reflexivity.
  apply throughput_draw_range.
Qed.

Lemma alter_store_sane i w d (st : store) :
  store_sane st -> store_sane (alter (write_slot w d) i st).
Proof.
  intros [Hlen Hrec]. split; [by rewrite length_alter|].
  intros j x Hj. destruct (decide (i = j)) as [<-|Hne].
  - rewrite list_lookup_alter_eq in Hj.
    destruct (st !! i) as [x0|] eqn:Hx0; [|done]. injection Hj as <-.
    apply write_slot_sane. by apply Hrec.
  - rewrite list_lookup_alter_ne in Hj by done. by apply Hrec.
Qed.

Lemma init_store_sane t0 : store_sane (init_store t0).
Proof.
  split; [apply init_store_length|]. intros i x Hx.
  assert (i < NUM_SITES)%nat as Hi.
  { apply lookup_lt_Some in Hx. by rewrite init_store_length in Hx. }
  rewrite init_store_lookup in Hx by done. injection Hx as <-.
  split; [|split; [reflexivity | cbn; lia]].
  unfold NUM_SITES in Hi. destruct i as [|[|[|[|i]]]]; try lia; reflexivity.
Qed.

Lemma step_store_sane envs e s s' :
  step envs e s = Some s' ->
  store_sane (sites_data (ks s)) -> store_sane (sites_data (ks s')).
Proof.
  destruct e; unfold step; intros H Hs.
  - destruct (timer_pending (ks s) && bool_decide (cb s = None)); [|done].
    injection H as <-. exact Hs.
  - destruct (cb s) as [[i w|]|]; [| |done]; injection H as <-.
    + cbn [ks sites_data set_sites_data]. by apply alter_store_sane.
    + exact Hs.
  - destruct (bool_decide (rd s = None) && _); [|done]. injection H as <-. exact Hs.
  - destruct (rd s) as [[i r]|]; [|done]. injection H as <-. exact Hs.
  - destruct (_ && _); [|done]. injection H as <-.
    cbn [ks]. by rewrite exit_stmt_sites_data.
Qed.

Lemma read_slot_sane i r x e :
  record_sane i x -> partial_sane i r e ->
  match r with
  | RLink => entry_sane i (read_slot r x e)
  | _ => forall r', rd_next i r = Some (i, r') -> partial_sane i r' (read_slot r x e)
  end.
Proof.
  intros (Hn & Hl & Ht) [Hpn Hpt].
  destruct r; cbn [rd_next]; try (intros r' [= <-]); unfold partial_sane, entry_sane;
    cbn in *; repeat split; intros; try done; try (apply Hpn; lia); try (apply Hpt; lia);
    try lia.
  by rewrite Hl.
Qed.

Lemma step_reader_sane envs e s s' :
  step envs e s = Some s' ->
  store_sane (sites_data (ks s)) -> reader_sane s -> reader_sane s'.
Proof.
  destruct e; unfold step; intros H Hst [Hout Hrd].
  - destruct (timer_pending (ks s) && bool_decide (cb s = None)); [|done].
    injection H as <-. exact (conj Hout Hrd).
  - destruct (cb s) as [[i w|]|]; [| |done]; injection H as <-; exact (conj Hout Hrd).
  - destruct (bool_decide (rd s = None) && _); [|done]. injection H as <-.
    unfold reader_sane. cbn [rd rout cur].
    split; [intros j e Hj; by rewrite lookup_nil in Hj|].
    change (0 <? NUM_SITES)%nat with true. cbv iota.
    split; [unfold NUM_SITES; lia|]. split; [done|].
    split; cbn; intros; lia.
  - destruct (rd s) as [[i r]|] eqn:Hrds; [|done]. injection H as <-.
    destruct Hrd as (Hi & Hlen & Hpart).
    destruct Hst as [Hlenst Hrec].
    destruct (lookup_lt_is_Some_2 (sites_data (ks s)) i ltac:(lia)) as [x Hx].
    rewrite (list_lookup_total_correct _ _ _ Hx).
    pose proof (read_slot_sane i r x (cur s) (Hrec _ _ Hx) Hpart) as Hnew.
    unfold reader_sane. cbn [rd rout cur].
    destruct r; cbn [rd_next];
      try (split; [exact Hout|]; split; [done|]; split; [done|]; by apply Hnew).
    split.
    + intros j e Hj. apply lookup_app_Some in Hj as [Hj|[Hge Hj]]; [by eauto|].
      apply list_lookup_singleton_Some in Hj as [Hj <-].
      assert (j = i) as -> by lia. exact Hnew.
    + destruct (Nat.ltb_spec (S i) NUM_SITES); [|done].
      split; [done|]. split; [rewrite length_app; cbn; lia|].
      split; cbn; intros; lia.
  - destruct (_ && _); [|done]. injection H as <-. exact (conj Hout Hrd).
Qed.

Lemma run_sane envs evs s s' :
  run envs evs s = Some s' ->
  store_sane (sites_data (ks s)) -> reader_sane s ->
  store_sane (sites_data (ks s')) /\ reader_sane s'.
Proof.
  revert s. induction evs as [|e evs IH]; intros s H Hst Hrd; cbn in H.
  - by simplify_eq.
  - destruct (step envs e s) as [s1|] eqn:Hstep; [|done].
    eauto using step_store_sane, step_reader_sane.
Qed.

(** X10: in every execution of a successfully loaded module, with any
    number of runs of the callback interleaved in any way with the loads of
    the reader, every record [proc_show] prints carries the site name of its
    index, link "UP" and a throughput in [800, 2000): a report may mix old and
    new fields, but it never shows a wrong site, a down link or a throughput
    the module does not store. *)
Theorem reports_always_sane env envs evs s j e :
  (skma_fon_init env k_blank).1 = 0 ->
  run envs evs (boot env) = Some s ->
  rout s !! j = Some e ->
  Some (e_site e) = site_names !! j
  /\ e_link e = "UP"
  /\ 800 <= e_throughput e < 2000.
Proof.
  intros Hinit Hrun Hj.
  destruct (init_success env Hinit) as (_ & Hsd & _).
  destruct (run_sane envs evs (boot env) s Hrun) as [_ [Hout _]].
  - cbn [boot ks]. rewrite Hsd. apply init_store_sane.
  - unfold reader_sane, boot. cbn [rd rout cur].
    split; [intros j' e' Hj'; by rewrite lookup_nil in Hj'|done].
  - exact (Hout j e Hj).
Qed.

Lemma reports_always_sane_witness :
  let e := default blank_entry
             (rout (state_of (run envs_demo sched_busy (boot init_env_ok))) !! 3%nat) in
  Some (e_site e) = site_names !! 3%nat
  /\ e_link e = "UP"
  /\ 800 <= e_throughput e < 2000.
Proof.
  intros e.
  apply (reports_always_sane init_env_ok envs_demo sched_busy
           (state_of (run envs_demo sched_busy (boot init_env_ok))) 3 e).
  - reflexivity.
  - vm_compute. reflexivity.
  - vm_compute. reflexivity.
Defined.

(** ** A report with no store in between *)

Lemma proc_show_fmap (st : store) :
  length st = NUM_SITES -> proc_show st = show_site <$> st.
Proof.
  intros Hlen. apply list_eq. intros i. rewrite list_lookup_fmap.
  destruct (decide (i < NUM_SITES)%nat) as [Hi|Hi].
  - rewrite proc_show_lookup by done.
    destruct (lookup_lt_is_Some_2 st i ltac:(lia)) as [x Hx].
    by rewrite (list_lookup_total_correct _ _ _ Hx), Hx.
  - rewrite (lookup_ge_None_2 st i) by lia.
    apply lookup_ge_None_2. unfold proc_show. rewrite length_fmap, length_seq. lia.
Qed.

(** X11: when the reader does all its loads with no store of the callback
    in between, it runs to the end and what it prints is the store as it
    stands, record for record and field for field; the reader itself changes
    nothing in the module. *)
Theorem report_consistent_when_quiet envs s :
  rd s = Some (0%nat, RName) -> rout s = [] ->
  length (sites_data (ks s)) = NUM_SITES ->
  exists s', run envs (replicate 28 ERead) s = Some s'
             /\ rout s' = show_site <$> sites_data (ks s)
             /\ rd s' = None
             /\ ks s' = ks s /\ cb s' = cb s.
Proof.
  intros Hrd Hout Hlen. eexists. split; [by apply run_reader_alone|].
  cbn [rout rd ks cb]. split; [by apply proc_show_fmap | done].
Qed.

Lemma report_consistent_when_quiet_witness :
  exists s', run envs_demo (replicate 28 ERead) race_demo_start = Some s'
             /\ rout s' = show_site <$> sites_data (ks race_demo_start)
             /\ rd s' = None
             /\ ks s' = ks race_demo_start /\ cb s' = cb race_demo_start.
Proof.
  apply (report_consistent_when_quiet envs_demo race_demo_start).
  - vm_compute. reflexivity.
  - vm_compute. reflexivity.
  - vm_compute. reflexivity.
Defined.

(** ** Utilization as a function of throughput *)

(** X12: over the throughputs the callback can draw, the utilization it
    stores is strictly increasing in the throughput: the rounding to a
    [float] never makes two different throughputs show the same
    utilization. *)
Theorem utilization_separates t t' :
  800 <= t -> t < t' -> t' < 2000 ->
  exists q q', Flt.to_Q (utilization_of t) = Some q
               /\ Flt.to_Q (utilization_of t') = Some q'
               /\ (q < q')%Q.
Proof.
  intros H1 H2 H3.
  destruct (util_check_spec _ _ (util_check_range t ltac:(lia)))
    as (_ & _ & q & Hq & _ & _ & Ht).
  destruct (util_check_spec _ _ (util_check_range t' ltac:(lia)))
    as (_ & _ & q' & Hq' & _ & _ & Ht').
  exists q, q'. split; [done|]. split; [done|].
  apply Qabs_Qle_condition in Ht, Ht'.
  unfold util_exact, util_tol in *.
  assert (inject_Z t + 1 <= inject_Z t')%Q as Hstep.
  { change 1%Q with (inject_Z 1). rewrite <- inject_Z_plus, <- Zle_Qle. lia. }
  unfold Qdiv in *. change (/ 2000)%Q with (1 # 2000)%Q in *.
  destruct Ht as [Ht1 Ht2], Ht' as [Ht1' Ht2'].
  clear Hq Hq'. revert Ht1 Ht2 Ht1' Ht2' Hstep.
  generalize (inject_Z t) (inject_Z t'). intros a b. lra.
Qed.

Lemma utilization_separates_witness :
  exists q q', Flt.to_Q (utilization_of 1998) = Some q
               /\ Flt.to_Q (utilization_of 1999) = Some q'
               /\ (q < q')%Q.
Proof. apply (utilization_separates 1998 1999); lia. Defined.

(** ** The callback always returns *)

Lemma cb_left_next i w : cb_left (CbWrite i w) = S (cb_left (cb_next i w)).
Proof.
  unfold cb_left, cb_next, NUM_SITES.
  destruct w; cbn [wslot_index]; try lia.
  destruct (Nat.ltb_spec (S i) 4); cbn [wslot_index]; lia.
Qed.

Lemma cb_left_bound pc : (1 <= cb_left pc <= 25)%nat.
Proof. destruct pc as [i w|]; unfold cb_left, NUM_SITES; [destruct w; cbn; lia | lia]. Qed.

(** X13: wherever the callback is, and whatever state it is in, it returns
    after at most 25 further steps of its own (24 stores and the re-arming
    [mod_timer] at most): its loop is bounded.  When it has returned the
    timer is queued again and one more run is counted, so the wait of
    [del_timer_sync] for a running callback always ends, and the first
    statement of [skma_fon_exit] can then run. *)
Theorem callback_terminates envs s pc :
  cb s = Some pc ->
  (cb_left pc <= 25)%nat
  /\ exists s', run envs (replicate (cb_left pc) ETimer) s = Some s'
       /\ cb s' = None
       /\ timer_pending (ks s') = true
       /\ ticks s' = N.succ (ticks s)
       /\ exit_pc s' = exit_pc s
       /\ (exit_pc s = 0%nat -> is_Some (step envs EExit s')).
Proof.
  intros Hcb. split; [apply cb_left_bound|].
  remember (cb_left pc) as n eqn:Hn. revert s pc Hcb Hn.
  induction n as [|n IH]; intros s pc Hcb Hn.
  - pose proof (cb_left_bound pc). lia.
  - destruct pc as [i w|].
    + rewrite cb_left_next in Hn. injection Hn as Hn.
      cbn [replicate run]. unfold step. rewrite Hcb.
      destruct (IH (mk_sys (set_sites_data
                              (alter (write_slot w (envs (ticks s) i)) i (sites_data (ks s)))
                              (ks s))
                           (ticks s) (Some (cb_next i w)) (rd s) (cur s) (rout s) (exit_pc s))
                   (cb_next i w) eq_refl Hn) as (s' & Hrun & H).
      exists s'. split; [exact Hrun | exact H].
    + assert (n = 0%nat) as -> by (cbn in Hn; lia).
      cbn [replicate run]. unfold step. rewrite Hcb.
      eexists. split; [reflexivity|]. cbn.
      repeat split; try reflexivity.
      intros Hx. rewrite Hx. cbn. eauto.
Qed.

Lemma callback_terminates_witness :
  exists s', run envs_demo (replicate 25 ETimer) race_demo_start = Some s'
       /\ cb s' = None
       /\ timer_pending (ks s') = true
       /\ ticks s' = N.succ (ticks race_demo_start)
       /\ exit_pc s' = exit_pc race_demo_start
       /\ (exit_pc race_demo_start = 0%nat -> is_Some (step envs_demo EExit s')).
Proof.
  refine (proj2 (callback_terminates envs_demo race_demo_start (CbWrite 0 WTs) _)).
  vm_compute. reflexivity.
Defined.

(** ** After the unload *)

Lemma exit_stmt_proc_entry pc k : proc_entry (exit_stmt pc k).2 = proc_entry k.
Proof.
  destruct pc as [|[|[|[|pc]]]]; try reflexivity.
  - k_unfold. destruct (proc_entry k) eqn:Hb; cbn; done.
  - k_unfold. destruct (proc_dir k) eqn:Hb; cbn; done.
  - k_unfold. destruct (shared_buffer k) eqn:Hb; cbn; done.
Qed.

Lemma exit_stmt_procfs_subseteq pc k x :
  x ∈ procfs (exit_stmt pc k).2 -> x ∈ procfs k.
Proof.
  destruct pc as [|[|[|[|pc]]]]; try done.
  - k_unfold. destruct (proc_entry k) eqn:Hb; cbn; [apply filter_out_subseteq | done].
  - k_unfold. destruct (proc_dir k) eqn:Hb; cbn; [apply filter_out_subseteq | done].
  - k_unfold. destruct (shared_buffer k) eqn:Hb; cbn; done.
Qed.

Lemma exit_stmt_1_procfs k :
  proc_entry k = true -> PROC_ENTRY ∉ procfs (exit_stmt 1 k).2.
Proof. intros Hb. k_unfold. rewrite Hb. cbn. apply filter_out_not_elem. Qed.

Lemma step_entry_removed envs e s s' :
  step envs e s = Some s' -> entry_removed s -> entry_removed s'.
Proof.
  unfold entry_removed. destruct e; unfold step; intros H [Hpe Hgone].
  - destruct (timer_pending (ks s) && bool_decide (cb s = None)); [|done].
    injection H as <-. done.
  - destruct (cb s) as [[i w|]|]; [| |done]; injection H as <-; done.
  - destruct (bool_decide (rd s = None) && _); [|done]. injection H as <-. done.
  - destruct (rd s) as [[i r]|]; [|done]. injection H as <-. done.
  - destruct (_ && _); [|done]. injection H as <-. cbn [ks exit_pc].
    rewrite exit_stmt_proc_entry. split; [done|]. intros Hx Hin.
    destruct (decide (exit_pc s = 1%nat)) as [H1|H1].
    + rewrite H1 in Hin. by apply exit_stmt_1_procfs in Hin.
    + apply exit_stmt_procfs_subseteq in Hin. apply Hgone; [lia | done].
Qed.

Lemma run_entry_removed envs evs s s' :
  run envs evs s = Some s' -> entry_removed s -> entry_removed s'.
Proof.
  revert s. induction evs as [|e evs IH]; intros s H Ha; cbn in H.
  - by simplify_eq.
  - destruct (step envs e s) as [s1|] eqn:Hstep; [|done].
    eauto using step_entry_removed.
Qed.

(** X14: in every execution of a successfully loaded module, from the
    moment [skma_fon_exit] has removed the proc entry no new reader can be
    opened, and the timer cannot fire and the callback cannot step; once the
    last statement of [skma_fon_exit] has run, [skma_fon_exit] itself has
    nothing left to do either. *)
Theorem unloaded_module_is_inert env envs evs s :
  (skma_fon_init env k_blank).1 = 0 ->
  run envs evs (boot env) = Some s ->
  (2 <= exit_pc s)%nat ->
  step envs EOpen s = None
  /\ step envs EFire s = None
  /\ step envs ETimer s = None
  /\ (exit_pc s = EXIT_STMTS -> step envs EExit s = None).
Proof.
  intros Hinit Hrun Hx.
  assert (entry_removed (boot env)) as Hb.
  { unfold entry_removed, boot. cbn [ks exit_pc].
    destruct env as [[] phys t0 [] []]; try discriminate Hinit.
    split; [reflexivity | lia]. }
  destruct (run_entry_removed _ _ _ _ Hrun Hb) as [_ Hgone].
  destruct (run_quiescent _ _ _ _ Hrun (boot_quiescent env)) as [Hc Hp].
  { unfold timer_stopped. lia. }
  unfold step. rewrite Hc, Hp. split_and!; try reflexivity.
  - rewrite (bool_decide_eq_false_2 (PROC_ENTRY ∈ procfs (ks s))) by (by apply Hgone).
    by rewrite andb_false_r.
  - intros ->. reflexivity.
Qed.

Lemma unloaded_module_is_inert_witness :
  step envs_demo EOpen (state_of (run envs_demo sched_unloaded (boot init_env_ok))) = None.
Proof.
  refine (proj1 (unloaded_module_is_inert init_env_ok envs_demo sched_unloaded
                   (state_of (run envs_demo sched_unloaded (boot init_env_ok))) _ _ _)).
  - reflexivity.
  - vm_compute. reflexivity.
  - vm_compute. lia.
Defined.

(** ** The callback under concurrent readers *)

(** X15: a reader never disturbs the callback.  However the loads of a
    reader are interleaved with one run of the callback, once the callback
    has returned the store is exactly what [update_stats_timer] computes
    from the store it was entered on, and one run has been counted. *)
Theorem reader_does_not_disturb_update envs evs s0 s1 :
  race_start s0 ->
  Forall race_event evs ->
  run envs evs s0 = Some s1 ->
  cb s1 = None ->
  sites_data (ks s1) = update_sites (envs (ticks s0)) (sites_data (ks s0))
  /\ sites_data (ks s1)
     = sites_data (update_stats_timer (envs (ticks s0)) (ks s0)).2.
Proof.
  intros (Hcb & Hrd & Hout & Hlen) Hevs Hrun Hdone.
  destruct (run_race_inv envs (ticks s0) (sites_data (ks s0)) Hlen evs s0 s1 Hevs Hrun)
    as [[(pc & Hpc & _)|[_ Hsd]] _].
  - left. exists cb_first. split; [done|].
    split; [change cb_first with (CbWrite 0 WTs); cbn; unfold NUM_SITES; lia|].
    split; [done|]. symmetry. apply store_at_first.
  - split.
    + rewrite Hout. intros j e' Hj. by rewrite lookup_nil in Hj.
    + rewrite Hrd, Hout. split; [unfold NUM_SITES; lia|]. split; [done|].
      intros r' Hr'. cbn in Hr'. lia.
  - congruence.
  - split; [exact Hsd|]. rewrite Hsd. reflexivity.
Qed.

Lemma reader_does_not_disturb_update_witness :
  sites_data (ks (state_of (run envs_demo sched_mixed race_demo_start)))
  = update_sites (envs_demo (ticks race_demo_start)) (sites_data (ks race_demo_start)).
Proof.
  refine (proj1 (reader_does_not_disturb_update envs_demo sched_mixed race_demo_start
                   (state_of (run envs_demo sched_mixed race_demo_start)) _ _ _ _)).
  - vm_compute. repeat split; reflexivity.
  - unfold sched_mixed, race_event. cbn.
    repeat (constructor; [first [left; reflexivity | right; reflexivity]|]).
    constructor.
  - vm_compute. reflexivity.
  - vm_compute. reflexivity.
Defined.

(** ** The store between and during runs of the callback *)

Lemma step_store_tracks_runs envs t0 e s s' :
  step envs e s = Some s' -> store_tracks_runs envs t0 s -> store_tracks_runs envs t0 s'.
Proof.
  assert (forall n, length (run_ticks envs n (init_store t0)) = NUM_SITES) as Hlen.
  { intros n. by rewrite run_ticks_length, init_store_length. }
  unfold store_tracks_runs. destruct e; unfold step; intros H Hs.
  - destruct (timer_pending (ks s)) eqn:Hp; cbn [andb] in H; [|done].
    case_bool_decide as Hc; [|done]. injection H as <-. rewrite Hc in Hs.
    cbn [cb ks ticks sites_data set_timer_pending].
    split; [change cb_first with (CbWrite 0 WTs); cbn; unfold NUM_SITES; lia|].
    rewrite store_at_first. exact Hs.
  - destruct (cb s) as [[i w|]|] eqn:Hcb; [| |done]; injection H as <-;
      cbn [cb ks ticks sites_data set_sites_data].
    + destruct Hs as [Hok Hsd].
      assert (cb_pc_ok (cb_next i w)) as Hnext by (by apply cb_next_ok).
      assert (alter (write_slot w (envs (ticks s) i)) i (sites_data (ks s))
              = store_at (cb_next i w) (envs (ticks s))
                  (run_ticks envs (ticks s) (init_store t0))) as Hst.
      { rewrite Hsd. apply store_at_step; [apply Hlen | exact Hok]. }
      destruct (cb_next i w); [exact (conj Hnext Hst) | exact (conj Hnext Hst)].
    + destruct Hs as [_ Hsd]. rewrite run_ticks_succ. exact Hsd.
  - destruct (bool_decide (rd s = None) && _); [|done]. injection H as <-. exact Hs.
  - destruct (rd s) as [[i r]|]; [|done]. injection H as <-. exact Hs.
  - destruct (_ && _); [|done]. injection H as <-.
    cbn [cb ks ticks]. rewrite exit_stmt_sites_data. exact Hs.
Qed.

(** In every execution of a successfully loaded module, whenever the
    callback is not running the store is the one after [ticks] whole runs. *)
Lemma quiet_store_is_run_ticks env envs evs s :
  (skma_fon_init env k_blank).1 = 0 ->
  run envs evs (boot env) = Some s ->
  cb s = None ->
  sites_data (ks s) = run_ticks envs (ticks s) (init_store (seed_now env)).
Proof.
  intros Hinit Hrun Hc.
  assert (store_tracks_runs envs (seed_now env) (boot env)) as Hb.
  { unfold store_tracks_runs, boot. cbn [cb ks ticks].
    rewrite run_ticks_0. by apply init_success. }
  assert (store_tracks_runs envs (seed_now env) s) as Hs.
  { clear Hc. revert Hrun Hb. generalize (boot env). revert s.
    induction evs as [|e evs IH]; intros s s0 Hrun Hb; cbn in Hrun.
    - by simplify_eq.
    - destruct (step envs e s0) as [s1|] eqn:Hstep; [|done].
      eauto using step_store_tracks_runs. }
  unfold store_tracks_runs in Hs. by rewrite Hc in Hs.
Qed.

